(** * The API proxy of the Landing Page Builder development server

    A shallow embedding of [server.py]: the request handler
    [MyHTTPRequestHandler] with its CORS [end_headers], [do_OPTIONS],
    [do_POST], [proxy_claude] and [proxy_gemini], over explicit models of the
    pieces of the Python runtime the handler calls ([bytes.decode],
    [int], [http.client]'s header check, [urllib]'s error processor).

    Conventions.
    - [bytes] are lists of [byte]; a Python [str] is the list of its code
      points ([str]); text that is Latin-1 on the wire (request line, header
      names and values) is a Rocq [string].
    - The [json] codec and the network are parameters of the handler (record
      [runtime]); a reference codec, [Json.loads] and [Json.dumps], is given
      to run the handler on concrete requests.
    - The header list of a response holds what the handler sends through
      [send_header], and [stderr] what it prints; the [Server] and [Date]
      lines that the base class adds in [send_response], and the access-log
      line that it writes, are not represented.
    - A [request] is what [parse_request] has made of a request line that
      states a version other than [HTTP/0.9]; the request line itself, and
      the requests without a version, are the matter of [connection],
      [parse_request] and [handle].
    - A call is one [urlopen] of the handler; the requests that the opener
      sends on its own inside that call (redirects) are not listed. *)

From Stdlib Require Import ZArith NArith List String Ascii Bool.
From Stdlib Require Import DecimalString.
From Stdlib Require Import Lia.
From Stdlib Require Import Strings.Byte.
Import ListNotations.

Local Open Scope string_scope.
Local Open Scope list_scope.

(** ** Bytes and text *)

Definition bytes := list byte.

(** A Python [str]: its Unicode code points. *)
Definition str := list N.

(** A literal of the source, character by character (ASCII in the source). *)
Definition lit (s : string) : str := map N_of_ascii (list_ascii_of_string s).

Definition str_eqb (a b : str) : bool :=
  if list_eq_dec N.eq_dec a b then true else false.

Definition byte_of_N (n : N) : byte :=
  match Byte.of_N n with Some b => b | None => Byte.x00 end.

(** [len(b)] printed with [str()]. *)
Definition str_of_nat (n : nat) : string := NilEmpty.string_of_uint (Nat.to_uint n).

Definition str_of_Z (z : Z) : string := NilEmpty.string_of_int (Z.to_int z).

(** Python exceptions that are not [urllib.error] ones: class name and
    [str(e)]. Where the text of a message depends on a position in the input
    (a codec or a JSON syntax error), only its fixed part is kept. *)
Record pyexc := PyExc { exc_class : string; exc_msg : str }.

(** The result of evaluating an expression that may raise. *)
Inductive pyres (A : Type) :=
| Val (a : A)
| Exn (e : pyexc).
Arguments Val {A} a.
Arguments Exn {A} e.

Definition pbind {A B} (x : pyres A) (f : A -> pyres B) : pyres B :=
  match x with Val a => f a | Exn e => Exn e end.

(** *** UTF-8, as [bytes.decode('utf-8')] and [str.encode('utf-8')] (strict) *)

Module Utf8.

Definition in_range (lo hi b : N) : bool := ((lo <=? b) && (b <=? hi))%N.

(** Payload bits of a continuation byte. *)
Definition low6 (b : N) : N := N.land b 63.

(** A strict decoder: overlong forms, surrogates and code points above
    U+10FFFF are refused, as CPython does. *)
Fixpoint decode_N (bs : list N) : option str :=
  match bs with
  | [] => Some []
  | b0 :: r0 =>
    if (b0 <? 128)%N then option_map (cons b0) (decode_N r0)
    else if in_range 194 223 b0 then
      match r0 with
      | b1 :: r1 =>
        if in_range 128 191 b1
        then option_map (cons (N.shiftl (N.land b0 31) 6 + low6 b1)%N) (decode_N r1)
        else None
      | _ => None
      end
    else if in_range 224 239 b0 then
      match r0 with
      | b1 :: b2 :: r2 =>
        let lo := if (b0 =? 224)%N then 160%N else 128%N in
        let hi := if (b0 =? 237)%N then 159%N else 191%N in
        if in_range lo hi b1 && in_range 128 191 b2
        then option_map
               (cons (N.shiftl (N.land b0 15) 12 + N.shiftl (low6 b1) 6 + low6 b2)%N)
               (decode_N r2)
        else None
      | _ => None
      end
    else if in_range 240 244 b0 then
      match r0 with
      | b1 :: b2 :: b3 :: r3 =>
        let lo := if (b0 =? 240)%N then 144%N else 128%N in
        let hi := if (b0 =? 244)%N then 143%N else 191%N in
        if in_range lo hi b1 && in_range 128 191 b2 && in_range 128 191 b3
        then option_map
               (cons (N.shiftl (N.land b0 7) 18 + N.shiftl (low6 b1) 12
                      + N.shiftl (low6 b2) 6 + low6 b3)%N)
               (decode_N r3)
        else None
      | _ => None
      end
    else None
  end.

Definition decode (b : bytes) : pyres str :=
  match decode_N (map Byte.to_N b) with
  | Some s => Val s
  | None => Exn (PyExc "UnicodeDecodeError" (lit "'utf-8' codec can't decode bytes"))
  end.

Definition cont (n : N) : N := (128 + N.land n 63)%N.

(** One code point below U+0800: one byte, or two. *)
Definition encode_char (c : N) : list N :=
  if (c <? 128)%N then [c] else [(192 + N.shiftr c 6)%N; cont c].

(** [s.encode('utf-8')] for a text whose code points are below U+0100, as
    the output of [json.dumps] is: it cannot fail. *)
Definition encode_text (s : string) : bytes :=
  flat_map (fun a => map byte_of_N (encode_char (N_of_ascii a)))
           (list_ascii_of_string s).

End Utf8.

(** ** Python values, as [json.loads] produces them *)

(** A float is kept as its [repr] together with its truth value (whether it
    is non-zero): the handler observes nothing else of it. *)
#[warnings="-register-all"]
Inductive json :=
| JNull
| JBool (b : bool)
| JInt (n : Z)
| JFloat (nonzero : bool) (repr : string)
| JStr (s : str)
| JList (xs : list json)
| JDict (items : list (str * json)).

Module Py.

Definition type_name (v : json) : string :=
  match v with
  | JNull => "NoneType" | JBool _ => "bool" | JInt _ => "int" | JFloat _ _ => "float"
  | JStr _ => "str" | JList _ => "list" | JDict _ => "dict"
  end.

Definition raise {A} (cls msg : string) : pyres A := Exn (PyExc cls (lit msg)).

Fixpoint lookup (k : str) (items : list (str * json)) : option json :=
  match items with
  | [] => None
  | (k', v) :: rest => if str_eqb k k' then Some v else lookup k rest
  end.

(** [v.get(key, default)]; [v.get(key)] is [get v key JNull]. *)
Definition get (v : json) (key : string) (default : json) : pyres json :=
  match v with
  | JDict items =>
    Val (match lookup (lit key) items with Some x => x | None => default end)
  | _ => raise "AttributeError"
           ("'" ++ type_name v ++ "' object has no attribute 'get'")
  end.

(** Truth value, as in [if api_key]. *)
Definition truthy (v : json) : bool :=
  match v with
  | JNull => false
  | JBool b => b
  | JInt n => negb (n =? 0)%Z
  | JFloat nz _ => nz
  | JStr s => negb (Nat.eqb (List.length s) 0)
  | JList xs => negb (Nat.eqb (List.length xs) 0)
  | JDict items => negb (Nat.eqb (List.length items) 0)
  end.

(** [v[:n]]. A [dict] refuses a slice as a key ([TypeError] up to Python
    3.11, [KeyError] from 3.12 on). *)
Definition slice_to (v : json) (n : nat) : pyres json :=
  match v with
  | JStr s => Val (JStr (firstn n s))
  | JList xs => Val (JList (firstn n xs))
  | JDict _ => raise "TypeError" "unhashable type: 'slice'"
  | _ => raise "TypeError" ("'" ++ type_name v ++ "' object is not subscriptable")
  end.

(** [v[0]]. The keys of a loaded [dict] are strings, so [0] is never one. *)
Definition index0 (v : json) : pyres json :=
  match v with
  | JList (x :: _) => Val x
  | JList [] => raise "IndexError" "list index out of range"
  | JStr (c :: _) => Val (JStr [c])
  | JStr [] => raise "IndexError" "string index out of range"
  | JDict _ => raise "KeyError" "0"
  | _ => raise "TypeError" ("'" ++ type_name v ++ "' object is not subscriptable")
  end.

(** [v[key]] for a string key. *)
Definition getitem (v : json) (key : string) : pyres json :=
  match v with
  | JDict items =>
    match lookup (lit key) items with
    | Some x => Val x
    | None => raise "KeyError" ("'" ++ key ++ "'")
    end
  | JList _ => raise "TypeError" "list indices must be integers or slices, not str"
  | JStr _ => raise "TypeError" "string indices must be integers, not 'str'"
  | _ => raise "TypeError" ("'" ++ type_name v ++ "' object is not subscriptable")
  end.

(** [len(v)]. *)
Definition len (v : json) : pyres nat :=
  match v with
  | JStr s => Val (List.length s)
  | JList xs => Val (List.length xs)
  | JDict items => Val (List.length items)
  | _ => raise "TypeError" ("object of type '" ++ type_name v ++ "' has no len()")
  end.

Fixpoint is_prefix (p s : str) : bool :=
  match p, s with
  | [], _ => true
  | _ :: _, [] => false
  | a :: p', b :: s' => N.eqb a b && is_prefix p' s'
  end.

(** [needle in haystack] for two strings. *)
Fixpoint substring (needle s : str) : bool :=
  is_prefix needle s ||
  match s with
  | [] => false
  | _ :: s' => substring needle s'
  end.

(** [needle in v] for a string literal [needle]: key membership in a
    [dict], element membership in a [list], substring of a [str]. *)
Definition contains (needle : string) (v : json) : pyres bool :=
  match v with
  | JDict items =>
    Val (match lookup (lit needle) items with Some _ => true | None => false end)
  | JList xs =>
    Val (existsb (fun x => match x with JStr s => str_eqb (lit needle) s | _ => false end) xs)
  | JStr s => Val (substring (lit needle) s)
  | _ => raise "TypeError" ("argument of type '" ++ type_name v ++ "' is not iterable")
  end.

End Py.

(** ** The diagnostic sink

    What [print(..., file=sys.stderr)] writes: a line is the sequence of the
    pieces of its f-string, values not yet rendered. *)

Inductive logitem :=
| Text (text : string)       (* literal text *)
| Value (v : json)           (* a formatted Python value *)
| Decoded (s : str)          (* decoded text *)
| Header (v : option string) (* a header value or [None] *)
| Int (n : Z)                (* an integer *)
| Elapsed.                   (* seconds between two readings of the clock *)

Definition logline := list logitem.

(** Diagnostic code: the lines written so far, and how the evaluation
    ended. It has no access to the connection or to the network. *)
Definition D (A : Type) : Type := list logline * pyres A.

Definition dret {A} (a : A) : D A := ([], Val a).

Definition dbind {A B} (m : D A) (f : A -> D B) : D B :=
  match m with
  | (out, Val a) => let (out', r) := f a in (out ++ out', r)
  | (out, Exn e) => (out, Exn e)
  end.

Definition eval {A} (x : pyres A) : D A := ([], x).

(** [print(line, file=sys.stderr)]: the argument is evaluated first. *)
Definition print (line : pyres logline) : D unit :=
  match line with
  | Val l => ([l], Val tt)
  | Exn e => ([], Exn e)
  end.

(** [try: body / except Exception as e: handler e] inside diagnostic code. *)
Definition dtry (body : D unit) (handler : pyexc -> D unit) : D unit :=
  match body with
  | (out, Exn e) => let (out', r) := handler e in (out ++ out', r)
  | done => done
  end.

Declare Scope diag_scope.
Delimit Scope diag_scope with diag.
Notation "x <- m ;; k" := (dbind m (fun x => k))
  (at level 61, m at next level, right associativity) : diag_scope.
Notation "m ;; k" := (dbind m (fun _ => k))
  (at level 61, right associativity) : diag_scope.

Declare Scope py_scope.
Delimit Scope py_scope with py.
Notation "x <- m ;; k" := (pbind m (fun x => k))
  (at level 61, m at next level, right associativity) : py_scope.

(** ** The connection and the upstream *)

(** A request, with its request line and headers already parsed by the
    base class: what [parse_request] leaves in [self.command], [self.path],
    [self.headers] and [self.rfile]. *)
Record request := {
  command : string;                    (* the method of the request line *)
  path : string;
  headers : list (string * string);
  rfile : bytes;                       (* what the client sends after the headers *)
  rfile_eof : bool                     (* whether it then closes its sending side *)
}.

(** What the client sends on a connection: the first line as [readline]
    returns it, read as Latin-1; the header block that follows, parsed, or
    [None] when [http.client.parse_headers] refuses it (a line that is too
    long, too many fields); and what comes after the blank line. *)
Record connection := {
  first_line : string;
  fields : option (list (string * string));
  rest : bytes;
  rest_eof : bool
}.

(** [str.isspace] on a character of Latin-1. *)
Definition isspace (a : ascii) : bool :=
  let n := N_of_ascii a in
  (((9 <=? n) && (n <=? 13)) || ((28 <=? n) && (n <=? 32))
   || (n =? 133) || (n =? 160))%N.

(** [s.split()]: the words between runs of white space; [word] is the word
    being read. *)
Fixpoint words_from (word : string) (s : string) : list string :=
  match s with
  | EmptyString => match word with EmptyString => [] | _ => [word] end
  | String a r =>
    if isspace a then
      match word with
      | EmptyString => words_from EmptyString r
      | _ => word :: words_from EmptyString r
      end
    else words_from (word ++ String a EmptyString) r
  end.

Definition words (s : string) : list string := words_from EmptyString s.

(** [s.lstrip('/')] *)
Fixpoint lstrip_slash (s : string) : string :=
  match s with
  | String a r => if Ascii.eqb a "/" then lstrip_slash r else s
  | EmptyString => EmptyString
  end.

(** [version_number >= (2, 0)], the order of tuples. *)
Definition at_least_2_0 (number : Z * Z) : bool :=
  let (major, minor) := number in
  ((2 <? major) || ((major =? 2) && (0 <=? minor)))%Z.

(** [len(self.raw_requestline) > 65536] *)
Definition too_long (line : string) : bool :=
  (65536 <? N.of_nat (String.length line))%N.

(** What [http.client] hands to the network for one [urlopen]. *)
Record wire_call := {
  w_url : string;
  w_headers : list (string * string);
  w_data : bytes;
  w_timeout : option Z                 (* seconds; [None] is the socket default *)
}.

(** What comes back: the response that ends the opener's redirect chain, or
    a failure of the transport. *)
Inductive net_result :=
| NetResponse (status : Z) (reason : string) (hdrs : list (string * string)) (payload : bytes)
| NetSendError (reason : str)          (* [OSError] while connecting or sending *)
| NetReadError (e : pyexc)             (* raised while waiting for or reading the response *)
| NetBodyError (status : Z) (reason : string) (hdrs : list (string * string)) (e : pyexc).
                                       (* the status line and the headers arrive, and
                                          reading the body raises [e] *)

(** The parts of the Python runtime that the handler is given. *)
Record runtime := {
  json_loads : str -> pyres json;      (* [json.loads] *)
  json_dumps : json -> string;         (* [json.dumps], ASCII by [ensure_ascii] *)
  int_of_str : string -> pyres Z;      (* [int(s)] for a string *)
  bytes_refused : Z -> option pyexc;   (* what refuses a [bytes] of that length, if
                                          anything: [MemoryError], [OverflowError] *)
  http_version : string -> pyres (Z * Z);
                                       (* the [try] block of [parse_request] on the last
                                          word of a request line: the two numbers of the
                                          version, or the error raised *)
  network : wire_call -> net_result;
  static_files : request -> Z * list (string * string) * bytes;
                                       (* [SimpleHTTPRequestHandler.send_head] and the file *)
  error_page : Z -> bytes              (* the body [send_error] writes *)
}.

Inductive exn :=
| HTTPError (code : Z) (reason : string) (fp : pyres bytes)
                                       (* [fp]: what [e.read()] gives, the body or the
                                          exception raised while reading it *)
| URLError (reason : str)
| Exception (e : pyexc).

(** [type(e).__name__] and [str(e)]. *)
Definition exn_class (e : exn) : string :=
  match e with
  | HTTPError _ _ _ => "HTTPError"
  | URLError _ => "URLError"
  | Exception p => exc_class p
  end.

Definition exn_str (e : exn) : str :=
  match e with
  | HTTPError code reason _ => lit ("HTTP Error " ++ str_of_Z code ++ ": " ++ reason)
  | URLError reason => lit "<urlopen error " ++ reason ++ lit ">"
  | Exception p => exc_msg p
  end.

(** Lines of [_headers_buffer], and what has been written to [wfile]. *)
Inductive hline :=
| StatusLine (code : Z)
| HeaderLine (name value : string).

Inductive chunk :=
| HeaderBlock (ls : list hline)
| Data (b : bytes).

Record state := {
  http09 : bool;                       (* [self.request_version == 'HTTP/0.9'], all that
                                          the base class asks of the version when it
                                          writes *)
  hbuf : list hline;
  wfile : list chunk;
  stderr : list logline;
  calls : list wire_call
}.

Definition init : state :=
  {| http09 := false; hbuf := []; wfile := []; stderr := []; calls := [] |}.

(** How a piece of handler code ends: normally, with an exception, or
    waiting for bytes that the client never sends. *)
Inductive res (A : Type) :=
| Ok (a : A)
| Raise (e : exn)
| Block.
Arguments Ok {A} a.
Arguments Raise {A} e.
Arguments Block {A}.

Definition M (A : Type) : Type := state -> res A * state.

Definition ret {A} (a : A) : M A := fun s => (Ok a, s).

Definition bind {A B} (m : M A) (f : A -> M B) : M B :=
  fun s =>
    match m s with
    | (Ok a, s') => f a s'
    | (Raise e, s') => (Raise e, s')
    | (Block, s') => (Block, s')
    end.

Definition throw {A} (e : exn) : M A := fun s => (Raise e, s).

Definition lift {A} (x : pyres A) : M A :=
  match x with
  | Val a => ret a
  | Exn e => throw (Exception e)
  end.

(** Run diagnostic code: its lines go to [stderr]. *)
Definition diag {A} (d : D A) : M A :=
  fun s =>
    let s' := {| http09 := http09 s; hbuf := hbuf s; wfile := wfile s;
                 stderr := stderr s ++ fst d; calls := calls s |} in
    match snd d with
    | Val a => (Ok a, s')
    | Exn e => (Raise (Exception e), s')
    end.

(** [try: body / except ...: handler e]. Every exception of the model is an
    [Exception], so the handler says which clause takes it. *)
Definition try_except (body : M unit) (handler : exn -> M unit) : M unit :=
  fun s =>
    match body s with
    | (Raise e, s') => handler e s'
    | done => done
    end.

Declare Scope handler_scope.
Delimit Scope handler_scope with M.
Notation "x <- m ;; k" := (bind m (fun x => k))
  (at level 61, m at next level, right associativity) : handler_scope.
Notation "m ;; k" := (bind m (fun _ => k))
  (at level 61, right associativity) : handler_scope.

(** ** The base class: [BaseHTTPRequestHandler]

    [send_response], [send_header] and [end_headers] do nothing when the
    version of the request is [HTTP/0.9]: a simple request is answered with
    a body alone. *)

(** [self.request_version = version]. *)
Definition set_request_version (simple : bool) : M unit :=
  fun s => (Ok tt, {| http09 := simple; hbuf := hbuf s; wfile := wfile s;
                      stderr := stderr s; calls := calls s |}).

Definition send_response (code : Z) : M unit :=
  fun s => (Ok tt, {| http09 := http09 s;
                      hbuf := hbuf s ++ (if http09 s then [] else [StatusLine code]);
                      wfile := wfile s; stderr := stderr s; calls := calls s |}).

Definition send_header (name value : string) : M unit :=
  fun s => (Ok tt, {| http09 := http09 s;
                      hbuf := hbuf s ++ (if http09 s then [] else [HeaderLine name value]);
                      wfile := wfile s; stderr := stderr s; calls := calls s |}).

(** [BaseHTTPRequestHandler.end_headers]: the buffer goes out. *)
Definition base_end_headers : M unit :=
  fun s => (Ok tt, {| http09 := http09 s;
                      hbuf := if http09 s then hbuf s else [];
                      wfile := wfile s ++ (if http09 s then [] else [HeaderBlock (hbuf s)]);
                      stderr := stderr s; calls := calls s |}).

Definition wfile_write (b : bytes) : M unit :=
  fun s => (Ok tt, {| http09 := http09 s; hbuf := hbuf s; wfile := wfile s ++ [Data b];
                      stderr := stderr s; calls := calls s |}).

Definition record_call (c : wire_call) : M unit :=
  fun s => (Ok tt, {| http09 := http09 s; hbuf := hbuf s; wfile := wfile s;
                      stderr := stderr s; calls := calls s ++ [c] |}).

Definition lower (a : ascii) : ascii :=
  let n := nat_of_ascii a in
  if (65 <=? n)%nat && (n <=? 90)%nat then ascii_of_nat (n + 32) else a.

Fixpoint lower_string (s : string) : string :=
  match s with
  | EmptyString => EmptyString
  | String a r => String (lower a) (lower_string r)
  end.

(** [headers[name]]: the first field of that name, whatever its case, or
    [None]. *)
Fixpoint header_get (name : string) (hs : list (string * string)) : option string :=
  match hs with
  | [] => None
  | (k, v) :: rest =>
    if String.eqb (lower_string k) (lower_string name) then Some v
    else header_get name rest
  end.

(** The largest [Py_ssize_t], on a 64-bit platform. *)
Definition PY_SSIZE_T_MAX : Z := 9223372036854775807.

(** [self.rfile.read(n)], the [read] of a [BufferedReader]. The length has
    to fit the index type and to be [-1] or more. For [-1] everything up to
    the end of the stream is read. Otherwise the result of [n] bytes is
    allocated first, which the runtime may refuse; a read that wants more
    than the client sends returns what there is once the client has closed,
    and waits otherwise. *)
Definition rfile_read (rt : runtime) (req : request) (n : Z) : M bytes :=
  if (n <? - PY_SSIZE_T_MAX - 1)%Z || (PY_SSIZE_T_MAX <? n)%Z then
    lift (Py.raise "OverflowError" "cannot fit 'int' into an index-sized integer")
  else if (n <? -1)%Z then
    lift (Py.raise "ValueError" "read length must be non-negative or -1")
  else if (n =? -1)%Z then
    if rfile_eof req then ret (rfile req) else (fun s => (Block, s))
  else
    match bytes_refused rt n with
    | Some e => throw (Exception e)
    | None =>
      if (Z.of_nat (List.length (rfile req)) <? n)%Z then
        if rfile_eof req then ret (rfile req) else (fun s => (Block, s))
      else ret (firstn (Z.to_nat n) (rfile req))
    end.

(** ** The client side: [urllib.request] over [http.client] *)

Record url_request := {
  full_url : string;
  data : bytes;
  req_headers : list (string * json)   (* values as the handler passes them *)
}.

Record http_response := {
  status : Z;
  resp_hdrs : list (string * string);
  payload : bytes
}.

(** The pattern [\n(?![ \t])|\r(?![ \t\n])] of [http.client]. *)
Fixpoint illegal_header_value (s : str) : bool :=
  match s with
  | [] => false
  | c :: r =>
    let next_in (ok : list N) :=
      match r with
      | [] => false
      | d :: _ => existsb (N.eqb d) ok
      end in
    (N.eqb c 10 && negb (next_in [32; 9]%N))
    || (N.eqb c 13 && negb (next_in [32; 9; 10]%N))
    || illegal_header_value r
  end.

Definition latin1 (s : str) : string := string_of_list_ascii (map ascii_of_N s).

(** [HTTPConnection.putheader] on one value: a [str] is encoded in Latin-1,
    an [int] (a [bool] is one) is printed, and the result is matched against
    the pattern above; any other value makes the match raise. This runs
    before the connection is opened. *)
Definition header_value (v : json) : pyres string :=
  match v with
  | JStr s =>
    if forallb (fun c => (c <? 256)%N) s then
      if illegal_header_value s then Py.raise "ValueError" "Invalid header value"
      else Val (latin1 s)
    else Py.raise "UnicodeEncodeError" "'latin-1' codec can't encode character"
  | JInt n => Val (str_of_Z n)
  | JBool b => Val (if b then "True" else "False")
  | _ => Py.raise "TypeError"
           ("expected string or bytes-like object, got '" ++ Py.type_name v ++ "'")
  end.

Fixpoint put_headers (hs : list (string * json)) : pyres (list (string * string)) :=
  match hs with
  | [] => Val []
  | (k, v) :: rest =>
    pbind (header_value v) (fun v' =>
    pbind (put_headers rest) (fun rest' => Val ((k, v') :: rest')))
  end.

Definition is_2xx (code : Z) : bool := (200 <=? code)%Z && (code <? 300)%Z.

(** ** [MyHTTPRequestHandler] *)

Definition cors_headers : list (string * string) :=
  [("Access-Control-Allow-Origin", "*");
   ("Access-Control-Allow-Methods", "GET, POST, OPTIONS");
   ("Access-Control-Allow-Headers", "Content-Type, x-api-key, x-goog-api-key");
   ("Cache-Control", "no-store, no-cache, must-revalidate")].

(** [end_headers], overridden: the four headers, then the base class. It is
    the method that every response of the server goes through. *)
Definition end_headers : M unit :=
  (send_header "Access-Control-Allow-Origin" "*" ;;
   send_header "Access-Control-Allow-Methods" "GET, POST, OPTIONS" ;;
   send_header "Access-Control-Allow-Headers" "Content-Type, x-api-key, x-goog-api-key" ;;
   send_header "Cache-Control" "no-store, no-cache, must-revalidate" ;;
   base_end_headers)%M.

Definition do_OPTIONS : M unit :=
  (send_response 200 ;;
   end_headers)%M.

Definition nl : string := String (ascii_of_nat 10) EmptyString.

(** ["=" * 60] *)
Definition rule : string := String.concat EmptyString (repeat "=" 60).

(** [s[-n:]] *)
Definition last_n {A} (n : nat) (l : list A) : list A := skipn (List.length l - n) l.

Definition claude_url : string := "https://api.anthropic.com/v1/messages".

Definition gemini_url : string :=
  "https://generativelanguage.googleapis.com/v1beta/models/gemini-2.5-flash-image-preview:generateContent".

Definition say (line : logline) : D unit := print (Val line).

Section Handler.

Variable rt : runtime.

(** [urllib.request.urlopen(req, timeout=...)] followed by
    [response.read()]: the headers are checked, the request goes out once,
    and [HTTPErrorProcessor] turns a response outside 2xx into an
    [HTTPError], whose body is not read yet; a failure to send becomes a
    [URLError], a failure while reading is raised as it is. *)
Definition urlopen (r : url_request) (timeout : option Z) : M http_response :=
  (hs <- lift (put_headers (req_headers r)) ;;
   let c := {| w_url := full_url r; w_headers := hs;
               w_data := data r; w_timeout := timeout |} in
   record_call c ;;
   match network rt c with
   | NetResponse st reason hdrs body =>
     if is_2xx st then ret {| status := st; resp_hdrs := hdrs; payload := body |}
     else throw (HTTPError st reason (Val body))
   | NetSendError reason => throw (URLError reason)
   | NetReadError e => throw (Exception e)
   | NetBodyError st reason hdrs e =>
     if is_2xx st then throw (Exception e)
     else throw (HTTPError st reason (Exn e))
   end)%M.

(** [int(self.headers['Content-Length'])]. *)
Definition py_int (v : option string) : pyres Z :=
  match v with
  | None => Py.raise "TypeError"
      "int() argument must be a string, a bytes-like object or a real number, not 'NoneType'"
  | Some s => int_of_str rt s
  end.

(** [json.dumps(v).encode('utf-8')]. *)
Definition dumps_utf8 (v : json) : bytes := Utf8.encode_text (json_dumps rt v).

(** [{'error': {'message': msg}}]. *)
Definition error_object (msg : str) : json :=
  JDict [(lit "error", JDict [(lit "message", JStr msg)])].


(** *** [proxy_claude]

    The pictographs that open some of the lines printed are left out of the
    text of the lines. *)

Definition log_claude_request (api_key body : json) : D unit :=
  (say [Text (nl ++ rule)] ;;
   say [Text "[ClaudeProxy] CLAUDE API REQUEST"] ;;
   say [Text rule] ;;
   print (m <- Py.get body "model" JNull ;; Val [Text "Model: "; Value m])%py ;;
   print (m <- Py.get body "max_tokens" JNull ;; Val [Text "Max tokens: "; Value m])%py ;;
   print (m <- Py.get body "temperature" JNull ;; Val [Text "Temperature: "; Value m])%py ;;
   say [Text "API key present: "; Text (if Py.truthy api_key then "Yes" else "No")] ;;
   print (if Py.truthy api_key
          then (k <- Py.slice_to api_key 15 ;;
                Val [Text "API key prefix: "; Value k; Text "..."])%py
          else Val [Text "N/A"]) ;;
   say [Text (rule ++ nl)])%diag.

(** The body of the inner [try] (lines 105 to 115). *)
Definition inspect_content (response_text : str) : D unit :=
  (parsed <- eval (json_loads rt response_text) ;;
   has_content <- eval (Py.contains "content" parsed) ;;
   nonempty <- (if has_content
                then eval (c <- Py.getitem parsed "content" ;;
                           n <- Py.len c ;;
                           Val (0 <? n)%nat)%py
                else dret false) ;;
   if nonempty then
     content_text <- eval (c <- Py.getitem parsed "content" ;;
                           c0 <- Py.index0 c ;;
                           Py.get c0 "text" (JStr []))%py ;;
     print (n <- Py.len content_text ;;
            Val [Text (nl ++ "Content text length: "); Int (Z.of_nat n); Text " chars"])%py ;;
     say [Text "Content text preview (first 300 chars):"] ;;
     print (t <- Py.slice_to content_text 300 ;; Val [Value t])%py ;;
     wrapped <- eval (a <- Py.contains "```json" content_text ;;
                      if a then Val true else Py.contains "```" content_text)%py ;;
     if wrapped then
       say [Text (nl ++ "CRITICAL: Content text contains markdown wrapping!")] ;;
       say [Text "This will need to be parsed by the response-parser.js"]
     else dret tt
   else dret tt)%diag.

Definition log_claude_response (response : http_response)
    (response_data : bytes) (response_text : str) : D unit :=
  (say [Text (nl ++ rule)] ;;
   say [Text "[ClaudeProxy] CLAUDE API RESPONSE"] ;;
   say [Text rule] ;;
   say [Text "Status: "; Int (status response)] ;;
   say [Text "Content-Type: "; Header (header_get "Content-Type" (resp_hdrs response))] ;;
   say [Text "Content-Length: "; Int (Z.of_nat (List.length response_data)); Text " bytes"] ;;
   say [Text (nl ++ "Response preview (first 500 chars):")] ;;
   say [Decoded (firstn 500 response_text)] ;;
   say [Text (nl ++ "Response preview (last 200 chars):")] ;;
   say [Decoded (last_n 200 response_text)] ;;
   (if Py.substring (lit "```json") response_text || Py.substring (lit "```") response_text
    then say [Text (nl ++ "WARNING: Response contains markdown code blocks!")]
    else dret tt) ;;
   dtry (inspect_content response_text)
        (fun e => say [Text (nl ++ "Response is not valid JSON: "); Decoded (exc_msg e)]) ;;
   say [Text (rule ++ nl)])%diag.

Definition proxy_claude (req : request) : M unit :=
  try_except
    (content_length <- lift (py_int (header_get "Content-Length" (headers req))) ;;
     post_data <- rfile_read rt req content_length ;;
     text <- lift (Utf8.decode post_data) ;;
     request_data <- lift (json_loads rt text) ;;
     api_key <- lift (Py.get request_data "apiKey" JNull) ;;
     body <- lift (Py.get request_data "body" JNull) ;;
     diag (log_claude_request api_key body) ;;
     let r := {| full_url := claude_url;
                 data := dumps_utf8 body;
                 req_headers := [("Content-Type", JStr (lit "application/json"));
                                 ("x-api-key", api_key);
                                 ("anthropic-version", JStr (lit "2023-06-01"))] |} in
     response <- urlopen r None ;;
     let response_data := payload response in
     response_text <- lift (Utf8.decode response_data) ;;
     diag (log_claude_response response response_data response_text) ;;
     send_response 200 ;;
     send_header "Content-Type" "application/json" ;;
     send_header "Content-Length" (str_of_nat (List.length response_data)) ;;
     end_headers ;;
     wfile_write response_data)%M
    (fun e =>
       match e with
       | HTTPError code _ fp =>
         (error_body <- lift fp ;;
          error_text <- lift (Utf8.decode error_body) ;;
          diag (say [Text (nl ++ "CLAUDE API ERROR: "); Int code] ;;
                say [Text "Error body: "; Decoded (firstn 500 error_text)])%diag ;;
          send_response code ;;
          send_header "Content-Type" "application/json" ;;
          send_header "Content-Length" (str_of_nat (List.length error_body)) ;;
          end_headers ;;
          wfile_write error_body)%M
       | _ =>
         (diag (say [Text (nl ++ "PROXY EXCEPTION: "); Text (exn_class e); Text ": ";
                     Decoded (exn_str e)] ;;
                say [Text "Traceback (most recent call last):"])%diag ;;
          send_response 500 ;;
          send_header "Content-Type" "application/json" ;;
          end_headers ;;
          let error_response := json_dumps rt (error_object (exn_str e)) in
          wfile_write (Utf8.encode_text error_response))%M
       end).

(** *** [proxy_gemini] *)

Definition log_gemini_request (api_key body : json) : D unit :=
  (say [Text (nl ++ rule)] ;;
   say [Text "[GeminiProxy] IMAGE GENERATION REQUEST"] ;;
   say [Text rule] ;;
   prompt_text <- eval (contents <- Py.get body "contents" (JList [JDict []]) ;;
                        c0 <- Py.index0 contents ;;
                        parts <- Py.get c0 "parts" (JList [JDict []]) ;;
                        p0 <- Py.index0 parts ;;
                        Py.get p0 "text" (JStr (lit "N/A")))%py ;;
   print (p <- Py.slice_to prompt_text 100 ;; Val [Text "Prompt: "; Value p; Text "..."])%py ;;
   say [Text "API key present: "; Text (if Py.truthy api_key then "Yes" else "No")])%diag.

Definition proxy_gemini (req : request) : M unit :=
  try_except
    (content_length <- lift (py_int (header_get "Content-Length" (headers req))) ;;
     post_data <- rfile_read rt req content_length ;;
     text <- lift (Utf8.decode post_data) ;;
     request_data <- lift (json_loads rt text) ;;
     api_key <- lift (Py.get request_data "apiKey" JNull) ;;
     body <- lift (Py.get request_data "body" JNull) ;;
     diag (log_gemini_request api_key body) ;;
     let url := gemini_url in
     diag (say [Text "Endpoint: "; Text url]) ;;
     let r := {| full_url := url;
                 data := dumps_utf8 body;
                 req_headers := [("Content-Type", JStr (lit "application/json"));
                                 ("x-goog-api-key", api_key)] |} in
     response <- urlopen r (Some 60%Z) ;;
     let response_data := payload response in
     diag (say [Text "Response received in "; Elapsed; Text "s"] ;;
           say [Text "Response size: "; Int (Z.of_nat (List.length response_data));
                Text " bytes"] ;;
           say [Text (rule ++ nl)])%diag ;;
     send_response 200 ;;
     send_header "Content-Type" "application/json" ;;
     end_headers ;;
     wfile_write response_data)%M
    (fun e =>
       match e with
       | HTTPError code _ fp =>
         (error_body <- lift fp ;;
          error_text <- lift (Utf8.decode error_body) ;;
          diag (say [Text (nl ++ "GEMINI API ERROR: "); Int code] ;;
                say [Text "Error: "; Decoded (firstn 500 error_text)])%diag ;;
          send_response code ;;
          send_header "Content-Type" "application/json" ;;
          end_headers ;;
          wfile_write error_body)%M
       | URLError reason =>
         (diag (say [Text (nl ++ "GEMINI NETWORK ERROR: "); Decoded reason]) ;;
          send_response 500 ;;
          send_header "Content-Type" "application/json" ;;
          end_headers ;;
          let error_response :=
            json_dumps rt (error_object (lit "Network error: " ++ reason)) in
          wfile_write (Utf8.encode_text error_response))%M
       | Exception _ =>
         (diag (say [Text (nl ++ "GEMINI PROXY ERROR: "); Text (exn_class e); Text ": ";
                     Decoded (exn_str e)]) ;;
          send_response 500 ;;
          send_header "Content-Type" "application/json" ;;
          end_headers ;;
          let error_response := json_dumps rt (error_object (exn_str e)) in
          wfile_write (Utf8.encode_text error_response))%M
       end).

(** [do_POST]. [SimpleHTTPRequestHandler] has no [do_POST], so the last
    branch raises [AttributeError]. *)
Definition do_POST (req : request) : M unit :=
  if String.eqb (path req) "/api/claude" then proxy_claude req
  else if String.eqb (path req) "/api/gemini" then proxy_gemini req
  else throw (Exception (PyExc "AttributeError"
                (lit "'super' object has no attribute 'do_POST'"))).

(** *** The rest of the server: the base classes *)

Fixpoint send_headers (hs : list (string * string)) : M unit :=
  match hs with
  | [] => ret tt
  | (k, v) :: rest => (send_header k v ;; send_headers rest)%M
  end.

(** [SimpleHTTPRequestHandler.do_GET] and [do_HEAD]: status and headers
    through [send_response], [send_header] and [self.end_headers()], then
    the file. *)
Definition do_GET (req : request) : M unit :=
  let '(code, hs, content) := static_files rt req in
  (send_response code ;; send_headers hs ;; end_headers ;; wfile_write content)%M.

Definition do_HEAD (req : request) : M unit :=
  let '(code, hs, _) := static_files rt req in
  (send_response code ;; send_headers hs ;; end_headers)%M.

(** [send_error(code)] for a code that has a body; [command] is
    [self.command], which is [None] while the request line is examined.
    The page shows the message that [send_error] is given, which is not
    represented. *)
Definition send_error (command : option string) (code : Z) : M unit :=
  let content := error_page rt code in
  (send_response code ;;
   send_header "Connection" "close" ;;
   send_header "Content-Type" "text/html;charset=utf-8" ;;
   send_header "Content-Length" (str_of_nat (List.length content)) ;;
   end_headers ;;
   match command with
   | Some method => if String.eqb method "HEAD" then ret tt else wfile_write content
   | None => wfile_write content
   end)%M.

(** The dispatch of [handle_one_request], once [parse_request] has accepted
    the request: the method [do_<command>] if the handler has one, [501]
    otherwise. The path plays no part here. *)
Definition handle_one_request (req : request) : M unit :=
  if String.eqb (command req) "OPTIONS" then do_OPTIONS
  else if String.eqb (command req) "POST" then do_POST req
  else if String.eqb (command req) "GET" then do_GET req
  else if String.eqb (command req) "HEAD" then do_HEAD req
  else send_error (Some (command req)) 501.

(** *** The request line

    [parse_request]: the version is [HTTP/0.9] until the request line has
    stated another one, so the [400] and [505] sent for a version that is
    refused, and everything sent to a request line of two words, go out
    without a status line and without headers. [protocol_version] is
    [HTTP/1.0] in this server, so no [100 Continue] is ever sent. The
    result is the request, or [None] when [parse_request] returns
    [False]. *)
Definition parse_request (c : connection) : M (option request) :=
  let ws := words (first_line c) in
  let n := List.length ws in
  (set_request_version true ;;
   match ws with
   | [] => ret None
   | _ =>
     accepted <- (if (3 <=? n)%nat then
                    let version := last ws EmptyString in
                    match http_version rt version with
                    | Exn _ => (send_error None 400 ;; ret false)
                    | Val number =>
                      if at_least_2_0 number then (send_error None 505 ;; ret false)
                      else (set_request_version (String.eqb version "HTTP/0.9") ;;
                            ret true)
                    end
                  else ret true) ;;
     if negb accepted then ret None
     else if negb ((2 <=? n)%nat && (n <=? 3)%nat) then (send_error None 400 ;; ret None)
     else
       let command := nth 0 ws EmptyString in
       let path := nth 1 ws EmptyString in
       if (n =? 2)%nat && negb (String.eqb command "GET")
       then (send_error None 400 ;; ret None)
       else
         let path := if String.prefix "//" path then ("/" ++ lstrip_slash path)%string
                     else path in
         match fields c with
         | None => (send_error (Some command) 431 ;; ret None)
         | Some hs =>
           ret (Some {| command := command; path := path; headers := hs;
                        rfile := rest c; rfile_eof := rest_eof c |})
         end
   end)%M.

(** [handle_one_request] in full, which is all of [handle] as the
    connection is closed after one request: the first line is read and
    parsed, the request dispatched; a [TimeoutError] that leaves the method
    is logged and goes no further. *)
Definition handle (c : connection) : M unit :=
  try_except
    (if too_long (first_line c) then
       (set_request_version false ;; send_error (Some EmptyString) 414)%M
     else
       match first_line c with
       | EmptyString => ret tt
       | _ =>
         (parsed <- parse_request c ;;
          match parsed with
          | Some req => handle_one_request req
          | None => ret tt
          end)%M
       end)
    (fun e =>
       match e with
       | Exception p =>
         if String.eqb (exc_class p) "TimeoutError" then ret tt else throw e
       | _ => throw e
       end).

End Handler.

(** ** What the caller and the upstream see *)

Record response := {
  resp_status : Z;
  resp_headers : list (string * string);
  resp_body : bytes
}.

Fixpoint header_lines (ls : list hline) : list (string * string) :=
  match ls with
  | [] => []
  | HeaderLine k v :: rest => (k, v) :: header_lines rest
  | StatusLine _ :: rest => header_lines rest
  end.

Fixpoint body_bytes (w : list chunk) : bytes :=
  match w with
  | [] => []
  | Data b :: rest => b ++ body_bytes rest
  | HeaderBlock _ :: rest => body_bytes rest
  end.

(** The response on the wire, if one was started: the first header block
    opens with the status line, the data written after it is the body. *)
Definition response_of (w : list chunk) : option response :=
  match w with
  | HeaderBlock (StatusLine code :: ls) :: rest =>
    Some {| resp_status := code; resp_headers := header_lines ls;
            resp_body := body_bytes rest |}
  | _ => None
  end.

Record outcome := {
  out_result : res unit;               (* how the handler ended *)
  out_response : option response;      (* what the caller received *)
  out_calls : list wire_call;          (* what went to the upstream, in order *)
  out_stderr : list logline
}.

Definition run (m : M unit) : outcome :=
  let (r, s) := m init in
  {| out_result := r; out_response := response_of (wfile s);
     out_calls := calls s; out_stderr := stderr s |}.

Definition serve (rt : runtime) (req : request) : outcome :=
  run (handle_one_request rt req).


(** What [urlopen] is called with for each target. *)
Definition call_ok (c : wire_call) : Prop :=
  (w_url c = gemini_url /\ w_timeout c = Some 60%Z) \/
  (w_url c = claude_url /\ w_timeout c = None).

(** The request line states a version that [parse_request] accepts and
    that is not [HTTP/0.9]: it has three words or more, and the last one is
    such a version. *)
Definition states_version (rt : runtime) (line : string) : bool :=
  let ws := words line in
  (3 <=? List.length ws)%nat &&
  match http_version rt (last ws EmptyString) with
  | Val number =>
    negb (at_least_2_0 number) && negb (String.eqb (last ws EmptyString) "HTTP/0.9")
  | Exn _ => false
  end.

Definition cors_lines : list hline :=
  map (fun h => HeaderLine (fst h) (snd h)) cors_headers.

(** What a handler of this server writes for a JSON answer: the status
    line, the type, the headers [extra] of its own, the lines of
    [end_headers], and the body. *)
Definition reply (code : Z) (extra : list (string * string)) (body : bytes)
  : list chunk :=
  [HeaderBlock (StatusLine code :: HeaderLine "Content-Type" "application/json"
                :: map (fun h => HeaderLine (fst h) (snd h)) extra ++ cors_lines);
   Data body].

(** Every header block written so far has the CORS and cache lines, and
    every call made so far has the timeout of its target. *)
Definition sound (s : state) : Prop :=
  (forall ls, In (HeaderBlock ls) (wfile s) -> incl cors_lines ls) /\
  Forall call_ok (calls s).

Definition preserves {A} (m : M A) : Prop :=
  forall s, sound s -> sound (snd (m s)).

(** ** A reference codec

    [json.loads] and [json.dumps] (with the default options) written out, to
    run the handler on concrete requests. Two simplifications: every syntax
    error carries the same message, and a float is kept as its literal, which
    is its [repr] only when the literal is written in shortest form. *)

Module Json.

Local Open Scope N_scope.

Definition is_ws (c : N) : bool := existsb (N.eqb c) [32; 9; 10; 13].

Fixpoint skip_ws (s : str) : str :=
  match s with
  | c :: r => if is_ws c then skip_ws r else s
  | [] => []
  end.

Fixpoint strip_prefix (p s : str) : option str :=
  match p, s with
  | [], _ => Some s
  | a :: p', b :: s' => if N.eqb a b then strip_prefix p' s' else None
  | _ :: _, [] => None
  end.

Definition is_digit (c : N) : bool := Utf8.in_range 48 57 c.

Fixpoint digits (s : str) : str * str :=
  match s with
  | c :: r => if is_digit c then let (d, rest) := digits r in (c :: d, rest) else ([], s)
  | [] => ([], [])
  end.

Definition nat_value (ds : str) : N := fold_left (fun acc d => acc * 10 + (d - 48)) ds 0%N.

Definition hex_value (c : N) : option N :=
  if is_digit c then Some (c - 48)
  else if Utf8.in_range 97 102 c then Some (c - 87)
  else if Utf8.in_range 65 70 c then Some (c - 55)
  else None.

Definition hex4 (s : str) : option (N * str) :=
  match s with
  | a :: b :: c :: d :: r =>
    match hex_value a, hex_value b, hex_value c, hex_value d with
    | Some x, Some y, Some z, Some w => Some ((((x * 16 + y) * 16 + z) * 16 + w), r)
    | _, _, _, _ => None
    end
  | _ => None
  end.

(** After [\u] and a first unit [hi]: a high surrogate followed by an
    escaped low one is one code point. *)
Definition join_surrogates (hi : N) (r : str) : N * str :=
  if Utf8.in_range 55296 56319 hi then
    match r with
    | 92 :: 117 :: r' =>
      match hex4 r' with
      | Some (lo, r'') =>
        if Utf8.in_range 56320 57343 lo
        then ((65536 + (hi - 55296) * 1024 + (lo - 56320)), r'')
        else (hi, r)
      | None => (hi, r)
      end
    | _ => (hi, r)
    end
  else (hi, r).

(** The characters of a string literal, after the opening quote. *)
Fixpoint chars (fuel : nat) (s : str) : option (str * str) :=
  match fuel with
  | O => None
  | S fuel' =>
    match s with
    | [] => None
    | 34 :: r => Some ([], r)
    | 92 :: e :: r =>
      let simple (c : N) := option_map (fun '(t, r') => (c :: t, r')) (chars fuel' r) in
      if N.eqb e 34 then simple 34
      else if N.eqb e 92 then simple 92
      else if N.eqb e 47 then simple 47
      else if N.eqb e 98 then simple 8
      else if N.eqb e 102 then simple 12
      else if N.eqb e 110 then simple 10
      else if N.eqb e 114 then simple 13
      else if N.eqb e 116 then simple 9
      else if N.eqb e 117 then
        match hex4 r with
        | Some (u, r1) =>
          let (c, r2) := join_surrogates u r1 in
          option_map (fun '(t, r') => (c :: t, r')) (chars fuel' r2)
        | None => None
        end
      else None
    | c :: r =>
      if (c <? 32) || N.eqb c 92 then None
      else option_map (fun '(t, r') => (c :: t, r')) (chars fuel' r)
    end
  end.

(** A number: an optional minus sign, an integer part ([0], or digits that
    do not start with [0]), an optional fraction (a dot and digits) and an
    optional exponent; an [int] when it has neither fraction nor exponent. *)
Definition number (s : str) : option (json * str) :=
  let (neg, s1) := match s with 45 :: r => (true, r) | _ => (false, s) end in
  let (ip, s2) :=
    match s1 with
    | 48 :: r => ([48], r)
    | _ => digits s1
    end in
  match ip with
  | [] => None
  | _ =>
    let (fp, s3) :=
      match s2 with
      | 46 :: r => let (d, r') := digits r in
                   match d with [] => ([], s2) | _ => (46 :: d, r') end
      | _ => ([], s2)
      end in
    let (ep, s4) :=
      match s3 with
      | e :: r =>
        if N.eqb e 101 || N.eqb e 69 then
          let (sign, r1) :=
            match r with
            | c :: r' => if N.eqb c 43 || N.eqb c 45 then ([c], r') else ([], r)
            | [] => ([], r)
            end in
          let (d, r2) := digits r1 in
          match d with [] => ([], s3) | _ => (e :: sign ++ d, r2) end
        else ([], s3)
      | [] => ([], s3)
      end in
    match fp, ep with
    | [], [] =>
      let n := Z.of_N (nat_value ip) in
      Some (JInt (if neg then - n else n)%Z, s4)
    | _, _ =>
      let mantissa := ip ++ fp in
      Some (JFloat (existsb (Utf8.in_range 49 57) mantissa)
                   (latin1 ((if neg then [45] else []) ++ ip ++ fp ++ ep)), s4)
    end
  end.

(** [d[k] = v] on the items of a [dict]. *)
Fixpoint dict_set (k : str) (v : json) (items : list (str * json)) : list (str * json) :=
  match items with
  | [] => [(k, v)]
  | (k', v') :: rest =>
    if str_eqb k k' then (k, v) :: rest else (k', v') :: dict_set k v rest
  end.

Fixpoint value (fuel : nat) (s : str) : option (json * str) :=
  match fuel with
  | O => None
  | S f =>
    let fix elements (n : nat) (s : str) (acc : list json) : option (json * str) :=
      match n with
      | O => None
      | S n' =>
        match value f s with
        | Some (v, r) =>
          match skip_ws r with
          | 44 :: r' => elements n' (skip_ws r') (acc ++ [v])
          | 93 :: r' => Some (JList (acc ++ [v]), r')
          | _ => None
          end
        | None => None
        end
      end in
    let fix members (n : nat) (s : str) (acc : list (str * json)) : option (json * str) :=
      match n with
      | O => None
      | S n' =>
        match s with
        | 34 :: r =>
          match chars (List.length r) r with
          | Some (k, r1) =>
            match skip_ws r1 with
            | 58 :: r2 =>
              match value f (skip_ws r2) with
              | Some (v, r3) =>
                match skip_ws r3 with
                | 44 :: r4 => members n' (skip_ws r4) (dict_set k v acc)
                | 125 :: r4 => Some (JDict (dict_set k v acc), r4)
                | _ => None
                end
              | None => None
              end
            | _ => None
            end
          | None => None
          end
        | _ => None
        end
      end in
    match s with
    | 34 :: r => option_map (fun '(t, r') => (JStr t, r')) (chars (List.length r) r)
    | 91 :: r =>
      match skip_ws r with
      | 93 :: r' => Some (JList [], r')
      | r' => elements (List.length r') r' []
      end
    | 123 :: r =>
      match skip_ws r with
      | 125 :: r' => Some (JDict [], r')
      | r' => members (List.length r') r' []
      end
    | _ =>
      match strip_prefix (lit "null") s, strip_prefix (lit "true") s,
            strip_prefix (lit "false") s with
      | Some r, _, _ => Some (JNull, r)
      | _, Some r, _ => Some (JBool true, r)
      | _, _, Some r => Some (JBool false, r)
      | _, _, _ =>
        match strip_prefix (lit "NaN") s, strip_prefix (lit "Infinity") s,
              strip_prefix (lit "-Infinity") s with
        | Some r, _, _ => Some (JFloat true "NaN", r)
        | _, Some r, _ => Some (JFloat true "Infinity", r)
        | _, _, Some r => Some (JFloat true "-Infinity", r)
        | _, _, _ => number s
        end
      end
    end
  end.

Definition loads (s : str) : pyres json :=
  match value (S (List.length s)) (skip_ws s) with
  | Some (v, r) =>
    match skip_ws r with
    | [] => Val v
    | _ => Py.raise "JSONDecodeError" "Extra data"
    end
  | None => Py.raise "JSONDecodeError" "Expecting value"
  end.

Definition dquote : string := String (ascii_of_N 34) EmptyString.

Definition hex_digit (n : N) : ascii :=
  ascii_of_N (if (n <? 10) then 48 + n else 87 + n).

Definition u_escape (c : N) : string :=
  "\u" ++ string_of_list_ascii
            [hex_digit (N.shiftr c 12 mod 16); hex_digit (N.shiftr c 8 mod 16);
             hex_digit (N.shiftr c 4 mod 16); hex_digit (c mod 16)].

Definition escape (c : N) : string :=
  if N.eqb c 34 then "\" ++ dquote
  else if N.eqb c 92 then "\\"
  else if N.eqb c 10 then "\n"
  else if N.eqb c 13 then "\r"
  else if N.eqb c 9 then "\t"
  else if N.eqb c 8 then "\b"
  else if N.eqb c 12 then "\f"
  else if Utf8.in_range 32 126 c then String (ascii_of_N c) EmptyString
  else if (c <? 65536) then u_escape c
  else let v := (c - 65536) in
       u_escape (55296 + N.shiftr v 10) ++ u_escape (56320 + N.land v 1023).

Definition quote (s : str) : string :=
  dquote ++ String.concat EmptyString (map escape s) ++ dquote.

Fixpoint dumps (v : json) : string :=
  match v with
  | JNull => "null"
  | JBool b => if b then "true" else "false"
  | JInt n => str_of_Z n
  | JFloat _ r => r
  | JStr s => quote s
  | JList xs => ("[" ++ String.concat ", " (map dumps xs) ++ "]")%string
  | JDict items =>
    ("{" ++ String.concat ", "
              (map (fun kv => match kv with (k, x) => quote k ++ ": " ++ dumps x end) items)
         ++ "}")%string
  end.

(** [int(s)] for an ASCII string: blanks around an optional sign and
    digits, which single underscores may separate. *)
Definition is_space (c : N) : bool := existsb (N.eqb c) [32; 9; 10; 11; 12; 13].

Fixpoint lstrip (s : str) : str :=
  match s with
  | c :: r => if is_space c then lstrip r else s
  | [] => []
  end.

Definition strip (s : str) : str := rev (lstrip (rev (lstrip s))).

(** Digits with single underscores between them; [prev] tells whether the
    character before was a digit. *)
Fixpoint grouped_digits (prev : bool) (s : str) (acc : N) : option N :=
  match s with
  | [] => if prev then Some acc else None
  | c :: r =>
    if is_digit c then grouped_digits true r (acc * 10 + (c - 48))
    else if N.eqb c 95 && prev then grouped_digits false r acc
    else None
  end.

Definition int_of_string (text : string) : pyres Z :=
  let s := strip (lit text) in
  let (neg, ds) :=
    match s with
    | 45 :: r => (true, r)
    | 43 :: r => (false, r)
    | _ => (false, s)
    end in
  match grouped_digits false ds 0 with
  | Some n => Val (if neg then - Z.of_N n else Z.of_N n)%Z
  | None => Py.raise "ValueError" ("invalid literal for int() with base 10: '" ++ text ++ "'")
  end.

End Json.

(** The bytes of an ASCII text. *)
Definition ascii_bytes (s : string) : bytes := list_byte_of_string s.

(** ** A reference library

    The pieces of [http.server] and of the interpreter that the runtime
    stands for, to run the handler on concrete requests. *)

Module Http.

(** [s.split(sep)] for a separator of one character. *)
Fixpoint split_on (sep : ascii) (word : string) (s : string) : list string :=
  match s with
  | EmptyString => [word]
  | String a r =>
    if Ascii.eqb a sep then word :: split_on sep EmptyString r
    else split_on sep (word ++ String a EmptyString) r
  end.

(** The version check of [parse_request], as in Python 3.11: the word
    starts with [HTTP/], what follows has one dot, and [int] takes both
    sides. *)
Definition version_number (version : string) : pyres (Z * Z) :=
  if String.prefix "HTTP/" version then
    let base_version_number := String.substring 5 (String.length version - 5) version in
    match split_on "." EmptyString base_version_number with
    | [major; minor] =>
      (a <- Json.int_of_string major ;;
       b <- Json.int_of_string minor ;;
       Val (a, b))%py
    | _ => Py.raise "ValueError" EmptyString
    end
  else Py.raise "ValueError" EmptyString.

(** A stand-in for the HTML page of [send_error], whose text no property
    depends on. *)
Definition error_page (code : Z) : bytes :=
  ascii_bytes ("<html><body><h1>Error response</h1><p>Error code: "
               ++ str_of_Z code ++ "</p></body></html>")%string.

(** What [send_head] answers when the path names nothing below the
    directory served: [send_error(404)]. *)
Definition not_found : Z * list (string * string) * bytes :=
  (404%Z,
   [("Connection", "close");
    ("Content-Type", "text/html;charset=utf-8");
    ("Content-Length", str_of_nat (List.length (error_page 404)))],
   error_page 404).

(** A [bytes] longer than [PY_SSIZE_T_MAX] less its header cannot be
    asked for; one of more than a gibibyte is taken to exhaust the memory
    of the machine. *)
Definition bytes_refused (n : Z) : option pyexc :=
  if (PY_SSIZE_T_MAX - 33 <? n)%Z
  then Some (PyExc "OverflowError" (lit "byte string is too large"))
  else if (1073741824 <? n)%Z then Some (PyExc "MemoryError" [])
  else None.

End Http.

(** The runtime over a given network, serving from a directory in which
    the paths asked for name nothing. *)
Definition python (net : wire_call -> net_result) : runtime :=
  {| json_loads := Json.loads;
     json_dumps := Json.dumps;
     int_of_str := Json.int_of_string;
     bytes_refused := Http.bytes_refused;
     http_version := Http.version_number;
     network := net;
     static_files := fun _ => Http.not_found;
     error_page := Http.error_page |}.

(** ** The handler without its diagnostics

    [proxy_gemini] with the statements that only feed [stderr] taken out
    (lines 169 to 174, 179, 190, 193 to 197, 207 to 209, 216 and 224 of
    [server.py]): what the caller would be sent with logging absent. It
    is the yardstick for the requirement that diagnostics never change a
    response. *)

Definition proxy_gemini_silent (rt : runtime) (req : request) : M unit :=
  try_except
    (content_length <- lift (py_int rt (header_get "Content-Length" (headers req))) ;;
     post_data <- rfile_read rt req content_length ;;
     text <- lift (Utf8.decode post_data) ;;
     request_data <- lift (json_loads rt text) ;;
     api_key <- lift (Py.get request_data "apiKey" JNull) ;;
     body <- lift (Py.get request_data "body" JNull) ;;
     let r := {| full_url := gemini_url;
                 data := dumps_utf8 rt body;
                 req_headers := [("Content-Type", JStr (lit "application/json"));
                                 ("x-goog-api-key", api_key)] |} in
     response <- urlopen rt r (Some 60%Z) ;;
     send_response 200 ;;
     send_header "Content-Type" "application/json" ;;
     end_headers ;;
     wfile_write (payload response))%M
    (fun e =>
       match e with
       | HTTPError code _ fp =>
         (error_body <- lift fp ;;
          send_response code ;;
          send_header "Content-Type" "application/json" ;;
          end_headers ;;
          wfile_write error_body)%M
       | URLError reason =>
         (send_response 500 ;;
          send_header "Content-Type" "application/json" ;;
          end_headers ;;
          let error_response :=
            json_dumps rt (error_object (lit "Network error: " ++ reason)) in
          wfile_write (Utf8.encode_text error_response))%M
       | Exception _ =>
         (send_response 500 ;;
          send_header "Content-Type" "application/json" ;;
          end_headers ;;
          let error_response := json_dumps rt (error_object (exn_str e)) in
          wfile_write (Utf8.encode_text error_response))%M
       end).

(** ** Requests and upstreams to run the handler on *)

Module Examples.

(** JSON text written with ['] for the double quote. *)
Definition json_text (s : string) : bytes :=
  map (fun b => if Byte.eqb b "'"%byte then x22 else b) (list_byte_of_string s).

Definition post (target : string) (content : bytes) : request :=
  {| command := "POST";
     path := target;
     headers := [("Host", "localhost:8000");
                 ("Content-Type", "application/json");
                 ("Content-Length", str_of_nat (List.length content))];
     rfile := content;
     rfile_eof := false |}.

(** An upstream that answers every call the same way. *)
Definition answers (code : Z) (reason content_type : string) (content : bytes)
  : wire_call -> net_result :=
  fun _ => NetResponse code reason [("Content-Type", content_type)] content.

Definition unreachable : wire_call -> net_result :=
  fun _ => NetSendError (lit "[Errno -2] Name or service not known").

Definition claude_envelope : bytes :=
  json_text "{'apiKey':'sk-ant-xxxx','body':{'model':'m1','max_tokens':10}}".

Definition claude_reply : bytes := json_text "{'content':[{'text':'hi'}]}".

Definition gemini_envelope : bytes :=
  json_text "{'apiKey':'k','body':{'contents':[{'parts':[{'text':'a cat'}]}]}}".

(** A well-formed envelope whose body has nothing to preview. *)
Definition gemini_empty_contents : bytes :=
  json_text "{'apiKey':'k','body':{'contents':[]}}".



Definition bad_request : bytes :=
  json_text "{'error':{'code':400,'status':'INVALID_ARGUMENT'}}".


End Examples.

(** More upstreams and requests, for the properties of the second part. *)
Module Upstreams.

Import Examples.

Definition ok_claude : runtime := python (answers 200 "OK" "application/json" claude_reply).

Definition bad_gateway : runtime := python (answers 502 "Bad Gateway" "text/html" [xff]).

Definition too_many : runtime :=
  python (answers 429 "Too Many Requests" "application/json" bad_request).

(** A POST whose declared length is [declared], whatever it sends. *)
Definition post_declaring (target declared : string) (content : bytes) : request :=
  {| command := "POST";
     path := target;
     headers := [("Host", "localhost:8000"); ("Content-Length", declared)];
     rfile := content;
     rfile_eof := false |}.

Definition get (target : string) : request :=
  {| command := "GET";
     path := target;
     headers := [("Host", "localhost:8000")];
     rfile := [];
     rfile_eof := false |}.

(** An upstream that answers with a status line and headers, and whose
    body cannot be read to its end. *)
Definition cut_short (code : Z) (reason : string) : runtime :=
  python (fun _ => NetBodyError code reason [("Content-Length", "100")]
                     (PyExc "IncompleteRead"
                            (lit "IncompleteRead(10 bytes read, 90 more expected)"))).

Definition crlf : string := String (ascii_of_nat 13) (String (ascii_of_nat 10) EmptyString).

(** A connection that sends one request line and a [Host] field. *)
Definition line (text : string) : connection :=
  {| first_line := (text ++ crlf)%string;
     fields := Some [("Host", "localhost:8000")];
     rest := [];
     rest_eof := false |}.

(** A connection that posts [content] with its length. *)
Definition posting (text : string) (content : bytes) : connection :=
  {| first_line := (text ++ crlf)%string;
     fields := Some [("Host", "localhost:8000");
                     ("Content-Type", "application/json");
                     ("Content-Length", str_of_nat (List.length content))];
     rest := content;
     rest_eof := false |}.

Definition hello : bytes := ascii_bytes "hello".

(** [rt], serving from a directory that holds the one file [target]. *)
Definition with_file (target mime modified : string) (content : bytes) (rt : runtime)
  : runtime :=
  {| json_loads := json_loads rt;
     json_dumps := json_dumps rt;
     int_of_str := int_of_str rt;
     bytes_refused := bytes_refused rt;
     http_version := http_version rt;
     network := network rt;
     static_files := fun req =>
       if String.eqb (path req) target
       then (200%Z,
             [("Content-type", mime);
              ("Content-Length", str_of_nat (List.length content));
              ("Last-Modified", modified)],
             content)
       else static_files rt req;
     error_page := error_page rt |}.

Definition hello_site : runtime :=
  with_file "/hello.txt" "text/plain" "Tue, 03 Nov 2026 09:00:00 GMT" hello
            (python unreachable).

End Upstreams.

(** * Properties *)

(** ** The invariant of the connection state *)

Lemma sound_init : sound init.
Proof. split; [intros ls []|constructor]. Qed.

Lemma cors_lines_end (ls : list hline) :
  incl cors_lines
       ((((ls ++ [HeaderLine "Access-Control-Allow-Origin" "*"])
            ++ [HeaderLine "Access-Control-Allow-Methods" "GET, POST, OPTIONS"])
           ++ [HeaderLine "Access-Control-Allow-Headers"
                          "Content-Type, x-api-key, x-goog-api-key"])
          ++ [HeaderLine "Cache-Control" "no-store, no-cache, must-revalidate"]).
Proof.
  intros h Hh. rewrite <- !app_assoc. apply in_or_app. right. exact Hh.
Qed.

Section Preservation.

Context {A B : Type}.

Lemma preserves_ret (a : A) : preserves (ret a).
Proof. intros s Hs. exact Hs. Qed.

Lemma preserves_throw (e : exn) : preserves (@throw A e).
Proof. intros s Hs. exact Hs. Qed.

Lemma preserves_lift (x : pyres A) : preserves (lift x).
Proof. destruct x; [apply preserves_ret|apply preserves_throw]. Qed.

Lemma preserves_diag (d : D A) : preserves (diag d).
Proof. intros s Hs. unfold diag. destruct (snd d); exact Hs. Qed.

Lemma preserves_bind (m : M A) (f : A -> M B) :
  preserves m -> (forall a, preserves (f a)) -> preserves (bind m f).
Proof.
  intros Hm Hf s Hs. unfold bind.
  specialize (Hm s Hs). destruct (m s) as [[a|e|] s']; cbn in *; auto.
  apply Hf, Hm.
Qed.

End Preservation.

Lemma preserves_try_except (body : M unit) (handler : exn -> M unit) :
  preserves body -> (forall e, preserves (handler e)) ->
  preserves (try_except body handler).
Proof.
  intros Hb Hh s Hs. unfold try_except.
  specialize (Hb s Hs). destruct (body s) as [[a|e|] s']; cbn in *; auto.
  apply Hh, Hb.
Qed.

Lemma preserves_set_request_version simple : preserves (set_request_version simple).
Proof. intros s Hs. exact Hs. Qed.

Lemma preserves_send_response code : preserves (send_response code).
Proof. intros s Hs. exact Hs. Qed.

Lemma preserves_send_header k v : preserves (send_header k v).
Proof. intros s Hs. exact Hs. Qed.

Lemma preserves_wfile_write b : preserves (wfile_write b).
Proof.
  intros s [Hw Hc]. split; [|exact Hc].
  cbn. intros ls Hin. apply in_app_or in Hin as [Hin|[Hin|[]]]; [auto|discriminate].
Qed.

(** The step that matters: a header block only ever leaves through the
    overridden [end_headers], which has just added the four lines. *)
Lemma preserves_end_headers : preserves end_headers.
Proof.
  intros [[] hb w e c] [Hw Hc]; (split; [|exact Hc]); cbn in *.
  - intros ls Hin. rewrite app_nil_r in Hin. auto.
  - intros ls Hin. apply in_app_or in Hin as [Hin|[Hin|[]]]; [auto|].
    injection Hin as <-. apply cors_lines_end.
Qed.

Lemma preserves_rfile_read rt req n : preserves (rfile_read rt req n).
Proof.
  unfold rfile_read.
  destruct (_ || _); [apply preserves_lift|].
  destruct (n <? -1)%Z; [apply preserves_lift|].
  destruct (n =? -1)%Z; [|destruct (bytes_refused rt n); [apply preserves_throw|]];
    repeat match goal with |- preserves (if ?b then _ else _) => destruct b end;
    first [apply preserves_ret | intros s Hs; exact Hs].
Qed.

Lemma preserves_send_headers hs : preserves (send_headers hs).
Proof.
  induction hs as [|[k v] hs IH]; [apply preserves_ret|].
  apply preserves_bind; [apply preserves_send_header|intros _; exact IH].
Qed.

Lemma preserves_urlopen rt r timeout :
  (full_url r = gemini_url /\ timeout = Some 60%Z) \/
  (full_url r = claude_url /\ timeout = None) ->
  preserves (urlopen rt r timeout).
Proof.
  intros Hok. unfold urlopen.
  apply preserves_bind; [apply preserves_lift|intros hs].
  apply preserves_bind.
  - intros s [Hw Hc]. split; [exact Hw|].
    cbn. apply Forall_app. split; [exact Hc|]. constructor; [exact Hok|constructor].
  - intros _. destruct (network rt _); [destruct (is_2xx _)| | |destruct (is_2xx _)];
      first [apply preserves_ret | apply preserves_throw].
Qed.

Ltac preserve :=
  repeat lazymatch goal with
    | |- preserves (bind _ _) => apply preserves_bind; [|intros ?]
    | |- preserves (ret _) => apply preserves_ret
    | |- preserves (throw _) => apply preserves_throw
    | |- preserves (lift _) => apply preserves_lift
    | |- preserves (diag _) => apply preserves_diag
    | |- preserves (send_response _) => apply preserves_send_response
    | |- preserves (send_header _ _) => apply preserves_send_header
    | |- preserves (send_headers _) => apply preserves_send_headers
    | |- preserves (wfile_write _) => apply preserves_wfile_write
    | |- preserves end_headers => apply preserves_end_headers
    | |- preserves (rfile_read _ _ _) => apply preserves_rfile_read
    | |- preserves (set_request_version _) => apply preserves_set_request_version
    | |- preserves (urlopen _ _ _) =>
      apply preserves_urlopen;
      solve [left; split; reflexivity | right; split; reflexivity]
    | |- preserves (if _ then _ else _) => destruct_if
    end
with destruct_if :=
  match goal with
  | |- preserves (if ?b then _ else _) => destruct b
  end.

Lemma preserves_proxy_claude rt req : preserves (proxy_claude rt req).
Proof.
  unfold proxy_claude. apply preserves_try_except.
  - preserve.
  - intros []; preserve.
Qed.

Lemma preserves_proxy_gemini rt req : preserves (proxy_gemini rt req).
Proof.
  unfold proxy_gemini. apply preserves_try_except.
  - preserve.
  - intros []; preserve.
Qed.

Lemma preserves_handle_one_request rt req : preserves (handle_one_request rt req).
Proof.
  unfold handle_one_request, do_OPTIONS, do_POST, do_GET, do_HEAD, send_error.
  destruct (String.eqb (command req) "OPTIONS"); [preserve|].
  destruct (String.eqb (command req) "POST").
  { destruct (String.eqb (path req) "/api/claude"); [apply preserves_proxy_claude|].
    destruct (String.eqb (path req) "/api/gemini"); [apply preserves_proxy_gemini|].
    apply preserves_throw. }
  destruct (static_files rt req) as [[code hs] content].
  destruct (String.eqb (command req) "GET"); [preserve|].
  destruct (String.eqb (command req) "HEAD"); preserve.
Qed.

Lemma preserves_send_error rt command code : preserves (send_error rt command code).
Proof. unfold send_error. preserve. destruct command; preserve. Qed.

Ltac preserve_all :=
  repeat first
    [ progress preserve
    | lazymatch goal with
      | |- preserves (send_error _ _ _) => apply preserves_send_error
      | |- preserves (match ?x with _ => _ end) => destruct x eqn:?
      end ].

Lemma preserves_parse_request rt c : preserves (parse_request rt c).
Proof. unfold parse_request. preserve_all. Qed.

Lemma preserves_handle rt c : preserves (handle rt c).
Proof.
  unfold handle. apply preserves_try_except.
  - destruct (too_long (first_line c)); [preserve_all|].
    destruct (first_line c); [preserve|].
    apply preserves_bind; [apply preserves_parse_request|].
    intros [req|]; [apply preserves_handle_one_request|preserve].
  - intros [| |p]; preserve_all.
Qed.

Lemma serve_sound rt req : sound (snd (handle_one_request rt req init)).
Proof. apply preserves_handle_one_request, sound_init. Qed.

Lemma header_lines_in k v ls :
  In (HeaderLine k v) ls -> In (k, v) (header_lines ls).
Proof.
  induction ls as [|[code|k' v'] ls IH]; cbn; [tauto| |].
  - intros [H|H]; [discriminate|auto].
  - intros [H|H]; [injection H as -> ->; auto|auto].
Qed.

(** A response that starts with a status line carries the four headers,
    as every header block does. *)
Lemma sound_response (s : state) (r : response) :
  sound s -> response_of (wfile s) = Some r -> incl cors_headers (resp_headers r).
Proof.
  intros [Hw _]. unfold response_of.
  destruct (wfile s) as [|[[|[code|] ls]|] tail]; try discriminate.
  intros [= <-]. cbn.
  intros [k v] Hin. apply header_lines_in.
  assert (Hl : In (HeaderLine k v) (StatusLine code :: ls)).
  { apply (Hw (StatusLine code :: ls)); [left; reflexivity|].
    change (HeaderLine k v) with ((fun h => HeaderLine (fst h) (snd h)) (k, v)).
    apply in_map, Hin. }
  destruct Hl as [Hl|Hl]; [discriminate|exact Hl].
Qed.

Lemma send_headers_run (hs : list (string * string)) (s : state) :
  send_headers hs s =
  (Ok tt, {| http09 := http09 s;
             hbuf := hbuf s ++ (if http09 s then []
                                else map (fun h => HeaderLine (fst h) (snd h)) hs);
             wfile := wfile s; stderr := stderr s; calls := calls s |}).
Proof.
  revert s. induction hs as [|[k v] hs IH]; intros s.
  - cbn. destruct s as [[] hb w e c]; cbn; rewrite app_nil_r; reflexivity.
  - cbn [send_headers]. unfold bind. cbn [send_header]. rewrite IH.
    destruct s as [[] hb w e c]; cbn; rewrite <- app_assoc; reflexivity.
Qed.

(** C8. Every call that goes to the image target has a timeout of 60
    seconds, and every call that goes to the text target has none; calls go
    nowhere else. *)
Theorem timeout_per_target :
  forall (rt : runtime) (req : request) (c : wire_call),
    In c (out_calls (serve rt req)) ->
    (w_url c = gemini_url -> w_timeout c = Some 60%Z) /\
    (w_url c = claude_url -> w_timeout c = None) /\
    (w_url c = gemini_url \/ w_url c = claude_url).
Proof.
  intros rt req c. unfold serve, run.
  pose proof (serve_sound rt req) as [_ Hc].
  destruct (handle_one_request rt req init) as [res s]. cbn in *.
  intros Hin. rewrite Forall_forall in Hc. specialize (Hc c Hin).
  destruct Hc as [[Hu Ht]|[Hu Ht]]; rewrite Hu, Ht.
  - repeat split; [discriminate|now left].
  - repeat split; [discriminate|now right].
Qed.


(** ** Walking through the two proxies *)

Lemma handle_post_claude rt req :
  command req = "POST" -> path req = "/api/claude" ->
  handle_one_request rt req = proxy_claude rt req.
Proof.
  intros Hc Hp. unfold handle_one_request, do_POST. rewrite Hc, Hp.
  cbn [String.eqb Ascii.eqb Bool.eqb]. reflexivity.
Qed.

Lemma handle_post_gemini rt req :
  command req = "POST" -> path req = "/api/gemini" ->
  handle_one_request rt req = proxy_gemini rt req.
Proof.
  intros Hc Hp. unfold handle_one_request, do_POST. rewrite Hc, Hp.
  cbn [String.eqb Ascii.eqb Bool.eqb]. reflexivity.
Qed.

(** Reading the body leaves the state alone, and raises nothing but an
    ordinary exception. *)
Lemma rfile_read_cases rt req n s :
  (exists b, rfile_read rt req n s = (Ok b, s)) \/
  (exists p, rfile_read rt req n s = (Raise (Exception p), s)) \/
  rfile_read rt req n s = (Block, s).
Proof.
  unfold rfile_read.
  destruct (_ || _); [right; left; eexists; reflexivity|].
  destruct (n <? -1)%Z; [right; left; eexists; reflexivity|].
  destruct (n =? -1)%Z;
    [|destruct (bytes_refused rt n); [right; left; eexists; reflexivity|]];
    repeat match goal with |- context [if ?b then _ else _] => destruct b end;
    unfold ret; solve [left; eexists; reflexivity | right; right; reflexivity].
Qed.

(** The inspection of the response is wrapped in its own [try], and what
    follows it cannot raise: the response log of [proxy_claude] always
    completes. *)
Lemma log_claude_response_completes rt response response_data response_text :
  snd (log_claude_response rt response response_data response_text) = Val tt.
Proof.
  unfold log_claude_response, dtry.
  destruct (inspect_content rt response_text) as [out [[]|e]];
    destruct (_ || _); reflexivity.
Qed.


Ltac reduce_in H :=
  cbn -[log_gemini_request log_claude_request log_claude_response lit rule nl
        str_of_nat dumps_utf8 Utf8.decode Utf8.encode_text put_headers
        header_get py_int rfile_read is_2xx exn_str exn_class Py.get] in H.

(** One step of the walk: a case analysis on the next thing that the run
    recorded in [H] depends on. *)
Ltac step_in H :=
  lazymatch type of H with
  | context [rfile_read ?rt ?req ?n ?s] =>
    let E := fresh "Eread" in
    destruct (rfile_read_cases rt req n s) as [[? E]|[[? E]| E]]; rewrite E in H
  | context [lift ?x] => destruct x eqn:?
  | context [match snd (log_claude_response ?r ?a ?b ?c) with _ => _ end] =>
    rewrite (log_claude_response_completes r a b c) in H
  | context [match snd ?d with _ => _ end] => destruct (snd d) as [[]|?] eqn:?
  | context [match network ?r ?c with _ => _ end] => destruct (network r c) eqn:?
  | context [if is_2xx ?st then _ else _] => destruct (is_2xx st) eqn:?
  end; reduce_in H.

Ltac open_in H :=
  unfold proxy_claude, proxy_gemini, try_except, bind, urlopen, diag in H;
  reduce_in H.

(** What is already known of a step is used instead of a case analysis. *)
Ltac given_in H E := rewrite E in H; reduce_in H.

Ltac walk_in H := open_in H; repeat (step_in H); injection H as <- <-.

(** Start from a statement about [serve] on a proxy path: name the run. *)
Ltac enter Hc Hp Hrun :=
  unfold serve, run in *;
  first [ rewrite (handle_post_claude _ _ Hc Hp) in *
        | rewrite (handle_post_gemini _ _ Hc Hp) in * ];
  match goal with
  | |- context [proxy_claude ?rt ?req init] =>
    destruct (proxy_claude rt req init) as [? ?] eqn:Hrun
  | |- context [proxy_gemini ?rt ?req init] =>
    destruct (proxy_gemini rt req init) as [? ?] eqn:Hrun
  end.

(** Close a case of a run lemma: bring in what the walk learnt. *)
Ltac settle :=
  repeat match goal with
         | H : network _ _ = _ |- _ => rewrite H
         | H : Utf8.decode _ = _ |- _ => rewrite H
         | H : is_2xx _ = _ |- _ => rewrite H
         end;
  split; reflexivity.




Section Properties.

Variable rt : runtime.


(** *** What a proxy has done once its call has gone out

    The two lemmas below say, for a run that issued a call, that the call is
    the only one, and what was written to the caller for each answer of
    the network. *)

Lemma proxy_claude_after_call (req : request) (r : res unit) (s : state) (c : wire_call) :
  proxy_claude rt req init = (r, s) ->
  In c (calls s) ->
  calls s = [c] /\
  match network rt c with
  | NetResponse st _ _ body =>
    match Utf8.decode body with
    | Val _ =>
      r = Ok tt /\
      wfile s = reply (if is_2xx st then 200%Z else st)
                      [("Content-Length", str_of_nat (List.length body))] body
    | Exn e =>
      if is_2xx st
      then r = Ok tt /\ wfile s = reply 500 [] (dumps_utf8 rt (error_object (exc_msg e)))
      else r = Raise (Exception e) /\ wfile s = []
    end
  | NetSendError reason =>
    r = Ok tt /\
    wfile s = reply 500 [] (dumps_utf8 rt (error_object (exn_str (URLError reason))))
  | NetReadError e =>
    r = Ok tt /\ wfile s = reply 500 [] (dumps_utf8 rt (error_object (exc_msg e)))
  | NetBodyError st _ _ e =>
    if is_2xx st
    then r = Ok tt /\ wfile s = reply 500 [] (dumps_utf8 rt (error_object (exc_msg e)))
    else r = Raise (Exception e) /\ wfile s = []
  end.
Proof.
  intros Hrun. walk_in Hrun; cbn [calls wfile app];
    intros Hin; try contradiction; destruct Hin as [<-|[]];
    (split; [reflexivity|]); settle.
Qed.

Lemma proxy_gemini_after_call (req : request) (r : res unit) (s : state) (c : wire_call) :
  proxy_gemini rt req init = (r, s) ->
  In c (calls s) ->
  calls s = [c] /\
  match network rt c with
  | NetResponse st _ _ body =>
    if is_2xx st then r = Ok tt /\ wfile s = reply 200 [] body
    else
      match Utf8.decode body with
      | Val _ => r = Ok tt /\ wfile s = reply st [] body
      | Exn e => r = Raise (Exception e) /\ wfile s = []
      end
  | NetSendError reason =>
    r = Ok tt /\
    wfile s = reply 500 [] (dumps_utf8 rt (error_object (lit "Network error: " ++ reason)))
  | NetReadError e =>
    r = Ok tt /\ wfile s = reply 500 [] (dumps_utf8 rt (error_object (exc_msg e)))
  | NetBodyError st _ _ e =>
    if is_2xx st
    then r = Ok tt /\ wfile s = reply 500 [] (dumps_utf8 rt (error_object (exc_msg e)))
    else r = Raise (Exception e) /\ wfile s = []
  end.
Proof.
  intros Hrun. walk_in Hrun; cbn [calls wfile app];
    intros Hin; try contradiction; destruct Hin as [<-|[]];
    (split; [reflexivity|]); settle.
Qed.

(** *** The yardstick of C2

    [proxy_gemini_silent] is a fair yardstick: once [proxy_gemini] has got
    as far as its call, the two have made the same call, and they have
    written the same bytes to the caller unless the upstream's error body
    does not decode. What is left for the diagnostics to change is what
    happens before the call, and that case. *)

Ltac reduce_goal :=
  cbn -[log_gemini_request log_claude_request log_claude_response lit rule nl
        str_of_nat dumps_utf8 Utf8.decode Utf8.encode_text put_headers
        header_get py_int rfile_read is_2xx exn_str exn_class Py.get].

(** A step of the walk that takes the goal along. *)
Ltac step_both H :=
  lazymatch type of H with
  | context [rfile_read ?rt ?req ?n ?s] =>
    let E := fresh "Eread" in
    destruct (rfile_read_cases rt req n s) as [[? E]|[[? E]| E]];
    rewrite E in H; rewrite ?E
  | context [lift ?x] => destruct x eqn:?
  | context [match snd ?d with _ => _ end] => destruct (snd d) as [[]|?] eqn:?
  | context [match network ?r ?c with _ => _ end] => destruct (network r c) eqn:?
  | context [if is_2xx ?st then _ else _] => destruct (is_2xx st) eqn:?
  end; reduce_in H; reduce_goal.

Lemma silent_agrees_from_the_call_on (req : request) (c : wire_call) :
  In c (out_calls (run (proxy_gemini rt req))) ->
  out_calls (run (proxy_gemini_silent rt req)) = out_calls (run (proxy_gemini rt req)) /\
  (out_response (run (proxy_gemini_silent rt req))
   = out_response (run (proxy_gemini rt req)) \/
   exists st reason hdrs body e,
     network rt c = NetResponse st reason hdrs body /\
     is_2xx st = false /\ Utf8.decode body = Exn e).
Proof.
  unfold run.
  destruct (proxy_gemini rt req init) as [r s] eqn:Hrun.
  destruct (proxy_gemini_silent rt req init) as [r' s'] eqn:Hsilent.
  cbn [out_calls out_response].
  assert (Hs : s' = snd (proxy_gemini_silent rt req init)) by now rewrite Hsilent.
  rewrite Hs. clear Hs Hsilent r' s'.
  unfold proxy_gemini_silent, try_except, bind, urlopen.
  open_in Hrun. reduce_goal.
  repeat (step_both Hrun).
  all: injection Hrun as <- <-.
  all: cbn [snd calls wfile app]; intros Hin; try contradiction.
  all: destruct Hin as [<-|[]].
  all: try (split; [reflexivity|left; reflexivity]).
  split; [reflexivity|]. right. do 5 eexists. repeat split; eassumption.
Qed.






(** What the [except HTTPError] clauses do when the error body is not
    UTF-8: decoding it for the log raises inside the clause, the handler
    dies, and the caller is sent nothing. *)
Lemma undecodable_error_body_is_fatal :
  forall (req : request) (c : wire_call) (st : Z) (reason : string)
         (hdrs : list (string * string)) (body : bytes) (e : pyexc),
    command req = "POST" ->
    path req = "/api/claude" \/ path req = "/api/gemini" ->
    In c (out_calls (serve rt req)) ->
    network rt c = NetResponse st reason hdrs body ->
    is_2xx st = false ->
    Utf8.decode body = Exn e ->
    out_result (serve rt req) = Raise (Exception e) /\
    out_response (serve rt req) = None.
Proof.
  intros req c st reason hdrs body e Hc Hp.
  destruct Hp as [Hp|Hp]; enter Hc Hp Hrun;
    cbn [out_calls out_response out_result]; intros Hin Hnet H2xx Hutf.
  - destruct (proxy_claude_after_call _ _ _ _ Hrun Hin) as [_ Hout].
    rewrite Hnet, Hutf, H2xx in Hout. destruct Hout as [-> ->]. split; reflexivity.
  - destruct (proxy_gemini_after_call _ _ _ _ Hrun Hin) as [_ Hout].
    rewrite Hnet, H2xx, Hutf in Hout. destruct Hout as [-> ->]. split; reflexivity.
Qed.


End Properties.

(** ** The request line and the version *)

Section Version.

Variable rt : runtime.

Lemma send_error_init (command : option string) (code : Z) :
  exists ls rest,
    send_error rt command code init =
    (Ok tt, {| http09 := false; hbuf := [];
               wfile := HeaderBlock (StatusLine code :: ls) :: rest;
               stderr := []; calls := [] |}).
Proof.
  unfold send_error, end_headers, bind.
  destruct command as [m|]; [destruct (String.eqb m "HEAD")|];
    cbn; do 2 eexists; reflexivity.
Qed.

Lemma parse_request_versioned (c : connection) :
  states_version rt (first_line c) = true ->
  (exists req, parse_request rt c init = (Ok (Some req), init)) \/
  (exists command code,
     parse_request rt c init = (Ok None, snd (send_error rt command code init))).
Proof.
  unfold states_version, parse_request. cbv zeta.
  destruct (words (first_line c)) as [|w ws] eqn:Hw; [discriminate|].
  intros H. apply andb_true_iff in H as [Hlen Hv].
  destruct (http_version rt (last (w :: ws) EmptyString)) as [number|]; [|discriminate].
  apply andb_true_iff in Hv as [H20 H09]. apply negb_true_iff in H20, H09.
  unfold bind. cbn [set_request_version]. rewrite Hlen, H20, H09.
  cbn [ret hbuf wfile stderr calls init negb].
  change {| http09 := false; hbuf := []; wfile := []; stderr := []; calls := [] |}
    with init.
  assert (Hrefuse : forall m code,
            exists command code',
              (let (r, s') := send_error rt m code init in
               match r with
               | Ok _ => ret (@None request) s'
               | Raise e => (Raise e, s')
               | Block => (Block, s')
               end) = (Ok None, snd (send_error rt command code' init))).
  { intros m code. exists m, code.
    destruct (send_error_init m code) as (ls & tail & ->). reflexivity. }
  destruct (negb ((2 <=? _)%nat && _)); [right; apply Hrefuse|].
  destruct ((_ =? 2)%nat && _); [right; apply Hrefuse|].
  destruct (fields c); [left; eexists; reflexivity|right; apply Hrefuse].
Qed.

Lemma proxy_claude_writes (req : request) :
  hbuf (snd (proxy_claude rt req init)) = [] /\
  (wfile (snd (proxy_claude rt req init)) = [] \/
   exists code extra body,
     wfile (snd (proxy_claude rt req init)) = reply code extra body).
Proof.
  destruct (proxy_claude rt req init) as [r s] eqn:Hrun.
  walk_in Hrun; cbn [snd hbuf wfile app];
    (split; [reflexivity|]);
    first [ left; reflexivity
          | right; eexists _, (@nil (string * string)), _; reflexivity
          | right; eexists _, [(_, _)], _; reflexivity ].
Qed.

Lemma proxy_gemini_writes (req : request) :
  hbuf (snd (proxy_gemini rt req init)) = [] /\
  (wfile (snd (proxy_gemini rt req init)) = [] \/
   exists code extra body,
     wfile (snd (proxy_gemini rt req init)) = reply code extra body).
Proof.
  destruct (proxy_gemini rt req init) as [r s] eqn:Hrun.
  walk_in Hrun; cbn [snd hbuf wfile app];
    (split; [reflexivity|]);
    first [ left; reflexivity
          | right; eexists _, (@nil (string * string)), _; reflexivity
          | right; eexists _, [(_, _)], _; reflexivity ].
Qed.

(** Whatever the method and the path, what the method writes to a request
    that states its version is nothing, or starts with a status line. *)
Lemma dispatch_writes (req : request) :
  wfile (snd (handle_one_request rt req init)) = [] \/
  exists code ls tail,
    wfile (snd (handle_one_request rt req init)) =
    HeaderBlock (StatusLine code :: ls) :: tail.
Proof.
  unfold handle_one_request.
  destruct (String.eqb (command req) "OPTIONS"); [right; cbn; eauto|].
  destruct (String.eqb (command req) "POST").
  { unfold do_POST.
    destruct (String.eqb (path req) "/api/claude").
    { destruct (proxy_claude_writes req) as [_ [->|(code & extra & body & ->)]];
        [now left|right; unfold reply; eauto]. }
    destruct (String.eqb (path req) "/api/gemini").
    { destruct (proxy_gemini_writes req) as [_ [->|(code & extra & body & ->)]];
        [now left|right; unfold reply; eauto]. }
    now left. }
  unfold do_GET, do_HEAD.
  destruct (static_files rt req) as [[code hs] content].
  destruct (String.eqb (command req) "GET");
    [right; unfold bind; cbn [send_response]; rewrite send_headers_run; cbn; eauto|].
  destruct (String.eqb (command req) "HEAD");
    [right; unfold bind; cbn [send_response]; rewrite send_headers_run; cbn; eauto|].
  destruct (send_error_init (Some (command req)) 501) as (ls & tail & ->).
  right. cbn. eauto.
Qed.

(** The clause for [TimeoutError] writes nothing. *)
Lemma handle_state (body : M unit) :
  snd (try_except body
         (fun e =>
            match e with
            | Exception p =>
              if String.eqb (exc_class p) "TimeoutError" then ret tt else throw e
            | _ => throw e
            end) init) = snd (body init).
Proof.
  unfold try_except. destruct (body init) as [[[]|[| |p]|] s]; try reflexivity.
  destruct (String.eqb _ _); reflexivity.
Qed.

Lemma handle_writes (c : connection) :
  too_long (first_line c) = true \/ states_version rt (first_line c) = true ->
  wfile (snd (handle rt c init)) = [] \/
  exists code ls tail,
    wfile (snd (handle rt c init)) = HeaderBlock (StatusLine code :: ls) :: tail.
Proof.
  intros H. unfold handle. rewrite handle_state.
  destruct (too_long (first_line c)) eqn:Hlong.
  { unfold bind. cbn [set_request_version].
    change {| http09 := false; hbuf := hbuf init; wfile := wfile init;
              stderr := stderr init; calls := calls init |} with init.
    destruct (send_error_init (Some EmptyString) 414) as (ls & tail & ->).
    right. cbn. eauto. }
  destruct H as [H|H]; [discriminate|].
  destruct (first_line c) eqn:Hline; [discriminate|]. rewrite <- Hline in H.
  unfold bind.
  destruct (parse_request_versioned c H) as [[req ->]|(m & code & ->)].
  - apply dispatch_writes.
  - destruct (send_error_init m code) as (ls & tail & ->). right. cbn. eauto.
Qed.

End Version.

(** C7, as the code has it. When the request line states a version that
    the base class accepts and that is not [HTTP/0.9] (or is too long to be
    read at all), whatever the server writes starts with a status line and
    a header block, and that block carries [Access-Control-Allow-Origin: *],
    [Access-Control-Allow-Methods: GET, POST, OPTIONS],
    [Access-Control-Allow-Headers: Content-Type, x-api-key, x-goog-api-key]
    and [Cache-Control: no-store, no-cache, must-revalidate]: on the proxy
    paths, success or error, for a static file, and for the [400], [414],
    [431] and [501] of the base class. A request line without such a
    version is answered without any header. *)
Theorem every_response_carries_cors :
  forall (rt : runtime) (c : connection),
    too_long (first_line c) = true \/ states_version rt (first_line c) = true ->
    let s := snd (handle rt c init) in
    wfile s = [] \/
    exists r, response_of (wfile s) = Some r /\ incl cors_headers (resp_headers r).
Proof.
  intros rt c H s.
  pose proof (preserves_handle rt c init sound_init) as Hsound. fold s in Hsound.
  destruct (handle_writes rt c H) as [Hnone|(code & ls & tail & Hw)];
    fold s in Hnone || fold s in Hw; [now left|right].
  assert (Hr : exists r, response_of (wfile s) = Some r)
    by (rewrite Hw; cbn; eauto).
  destruct Hr as [r Hr]. exists r. split; [exact Hr|].
  exact (sound_response s r Hsound Hr).
Qed.


(** ** The handler on concrete requests *)

Module Runs.

Import Examples.

(** C2. Diagnostics change a response. A well-formed envelope with key and
    body, whose [contents] list is empty: the preview of the prompt raises
    [IndexError], the caller is answered [500] and nothing goes upstream;
    with the diagnostic statements taken out, the request is forwarded and
    the upstream's answer is what the caller receives. *)
Theorem diagnostics_change_the_response :
  let rt := python (answers 400 "Bad Request" "application/json" bad_request) in
  let req := post "/api/gemini" gemini_empty_contents in
  (out_calls (serve rt req) = [] /\
   option_map resp_status (out_response (serve rt req)) = Some 500%Z) /\
  (List.length (out_calls (run (proxy_gemini_silent rt req))) = 1%nat /\
   out_response (run (proxy_gemini_silent rt req)) =
   Some {| resp_status := 400;
           resp_headers := ("Content-Type", "application/json") :: cors_headers;
           resp_body := bad_request |}).
Proof. vm_compute. repeat split. Qed.

(** C4. An upstream error whose body is not UTF-8 is not relayed: the call
    is made, the upstream answers [502] with the byte [0xff], decoding that
    body for the log raises inside the [except HTTPError] clause, the
    handler dies with [UnicodeDecodeError] and the caller is sent nothing.
    So on both paths. *)
Theorem undecodable_error_body_kills_the_handler :
  let rt := python (answers 502 "Bad Gateway" "text/html" [xff]) in
  let dies (o : outcome) :=
    List.length (out_calls o) = 1%nat /\
    out_response o = None /\
    exists msg, out_result o = Raise (Exception (PyExc "UnicodeDecodeError" msg)) in
  dies (serve rt (post "/api/claude" claude_envelope)) /\
  dies (serve rt (post "/api/gemini" gemini_envelope)).
Proof. vm_compute. repeat split; eexists; reflexivity. Qed.



(** Against C7 as stated: a request line that states no version, the
    simple request of HTTP/0.9. The file is sent back, and not one header
    with it; the same file asked for with [HTTP/1.0] comes with its status
    line, its headers and the four of [end_headers]. A version that the
    base class refuses is answered with the error page alone. *)
Lemma simple_request_is_answered_without_headers :
  let rt := Upstreams.hello_site in
  let sent (text : string) := wfile (snd (handle rt (Upstreams.line text) init)) in
  (sent "GET /hello.txt" = [Data Upstreams.hello] /\
   response_of (sent "GET /hello.txt") = None /\
   forall ls, ~ In (HeaderBlock ls) (sent "GET /hello.txt")) /\
  (exists r, response_of (sent "GET /hello.txt HTTP/1.0") = Some r /\
             resp_status r = 200%Z /\
             incl cors_headers (resp_headers r) /\
             resp_body r = Upstreams.hello) /\
  sent "GET /hello.txt HTTP/2.0" = [Data (error_page rt 505)].
Proof.
  cbv zeta. split; [|split].
  - vm_compute. repeat split. intros ls [H|[]]. discriminate H.
  - eexists. split; [vm_compute; reflexivity|].
    split; [reflexivity|]. split; [|reflexivity].
    intros h Hh. do 3 right. exact Hh.
  - vm_compute. reflexivity.
Qed.

(** *** The theorems at work *)





Lemma every_response_carries_cors_witness :
  let rt := python unreachable in
  let c := Upstreams.posting "POST /api/gemini HTTP/1.1" gemini_envelope in
  states_version rt (first_line c) = true /\
  (wfile (snd (handle rt c init)) = [] \/
   exists r, response_of (wfile (snd (handle rt c init))) = Some r /\
             incl cors_headers (resp_headers r)).
Proof.
  cbv zeta.
  assert (H : states_version (python unreachable)
                (first_line (Upstreams.posting "POST /api/gemini HTTP/1.1"
                                               gemini_envelope)) = true)
    by (vm_compute; reflexivity).
  split; [exact H|].
  apply (every_response_carries_cors
           (python unreachable)
           (Upstreams.posting "POST /api/gemini HTTP/1.1" gemini_envelope)).
  right. exact H.
Defined.

Lemma timeout_per_target_witness :
  let rt := python unreachable in
  let req := post "/api/gemini" gemini_envelope in
  exists c, out_calls (serve rt req) = [c] /\
            (w_url c = gemini_url -> w_timeout c = Some 60%Z) /\
            (w_url c = claude_url -> w_timeout c = None) /\
            (w_url c = gemini_url \/ w_url c = claude_url).
Proof.
  cbv zeta. eexists. split; [vm_compute; reflexivity|].
  apply (timeout_per_target (python unreachable) (post "/api/gemini" gemini_envelope)).
  vm_compute. left. reflexivity.
Defined.



End Runs.

(** * More of the server

    What follows goes beyond the two proxies' answers: the routing of
    [do_POST] and of the base class, what exactly is sent upstream, the
    reading of the request body, and what the request log shows of a key. *)

(** ** Routing: [do_POST] and the dispatch on the method *)

(** Only a POST to one of the two proxy paths can make the server call an
    upstream: no other method and no other path does. *)
Theorem only_proxy_posts_reach_the_upstream :
  forall (rt : runtime) (req : request) (c : wire_call),
    In c (out_calls (serve rt req)) ->
    command req = "POST" /\
    (path req = "/api/claude" \/ path req = "/api/gemini").
Proof.
  intros rt req c. unfold serve, run, handle_one_request.
  destruct (String.eqb (command req) "OPTIONS") eqn:Ho; [intros []|].
  destruct (String.eqb (command req) "POST") eqn:Hpost.
  - apply String.eqb_eq in Hpost. unfold do_POST.
    destruct (String.eqb (path req) "/api/claude") eqn:H1;
      [apply String.eqb_eq in H1; auto|].
    destruct (String.eqb (path req) "/api/gemini") eqn:H2;
      [apply String.eqb_eq in H2; auto|].
    intros [].
  - unfold do_GET, do_HEAD.
    destruct (static_files rt req) as [[code hs] content].
    destruct (String.eqb (command req) "GET");
      [unfold bind; cbn [send_response]; rewrite send_headers_run; intros []|].
    destruct (String.eqb (command req) "HEAD");
      [unfold bind; cbn [send_response]; rewrite send_headers_run; intros []|].
    destruct (send_error_init rt (Some (command req)) 501) as (ls & tail & ->).
    intros [].
Qed.

(** A POST to any other path is handed to [super().do_POST()], which the
    base class does not have: the handler dies with [AttributeError], the
    caller is sent nothing and nothing goes upstream. The comparison of the
    path is exact, so a query string or a trailing slash is another path. *)
Theorem post_elsewhere_dies_unanswered :
  forall (rt : runtime) (req : request),
    command req = "POST" ->
    path req <> "/api/claude" ->
    path req <> "/api/gemini" ->
    out_response (serve rt req) = None /\
    out_calls (serve rt req) = [] /\
    exists msg,
      out_result (serve rt req) = Raise (Exception (PyExc "AttributeError" msg)).
Proof.
  intros rt req Hc H1 H2. unfold serve, run, handle_one_request, do_POST.
  rewrite Hc. cbn [String.eqb Ascii.eqb Bool.eqb].
  apply String.eqb_neq in H1, H2. rewrite H1, H2.
  repeat split. eexists. reflexivity.
Qed.

(** ** What goes upstream *)

(** The headers that [proxy_claude] and [proxy_gemini] pass: only the key
    can be refused. *)
Lemma put_headers_claude (k : json) :
  put_headers [("Content-Type", JStr (lit "application/json"));
               ("x-api-key", k);
               ("anthropic-version", JStr (lit "2023-06-01"))] =
  pbind (header_value k) (fun key =>
    Val [("Content-Type", "application/json"); ("x-api-key", key);
         ("anthropic-version", "2023-06-01")]).
Proof. cbn [put_headers]. destruct (header_value k); reflexivity. Qed.

Lemma put_headers_gemini (k : json) :
  put_headers [("Content-Type", JStr (lit "application/json"));
               ("x-goog-api-key", k)] =
  pbind (header_value k) (fun key =>
    Val [("Content-Type", "application/json"); ("x-goog-api-key", key)]).
Proof. cbn [put_headers]. destruct (header_value k); reflexivity. Qed.

(** Read the headers of a call back from what the walk recorded. *)
Ltac headers_of_call :=
  match goal with
  | H : put_headers _ = Val _ |- _ =>
    first [rewrite put_headers_claude in H | rewrite put_headers_gemini in H];
    let Hk := fresh "Hkey" in
    match type of H with
    | pbind (header_value ?k) _ = _ =>
      destruct (header_value k) eqn:Hk; cbn [pbind] in H;
      [injection H as <-|discriminate H]
    end
  end.

Section Upstream.

Variable rt : runtime.

(** The call of [proxy_claude] is the envelope and nothing else: it goes to
    the Anthropic URL without a timeout, its payload is [json.dumps] of the
    envelope's [body], and its headers are the JSON type, the envelope's
    [apiKey] as [x-api-key] and the fixed [anthropic-version]. *)
Theorem claude_call_is_the_envelope :
  forall (req : request) (c : wire_call),
    command req = "POST" ->
    path req = "/api/claude" ->
    In c (out_calls (serve rt req)) ->
    exists n post_data text request_data api_key body key,
      py_int rt (header_get "Content-Length" (headers req)) = Val n /\
      rfile_read rt req n init = (Ok post_data, init) /\
      Utf8.decode post_data = Val text /\
      json_loads rt text = Val request_data /\
      Py.get request_data "apiKey" JNull = Val api_key /\
      Py.get request_data "body" JNull = Val body /\
      header_value api_key = Val key /\
      c = {| w_url := claude_url;
             w_headers := [("Content-Type", "application/json");
                           ("x-api-key", key);
                           ("anthropic-version", "2023-06-01")];
             w_data := dumps_utf8 rt body;
             w_timeout := None |}.
Proof.
  intros req c Hc Hp. enter Hc Hp Hrun. walk_in Hrun;
    cbn [out_calls calls app]; intros Hin; try contradiction;
    destruct Hin as [<-|[]]; headers_of_call;
    do 7 eexists; repeat split; eassumption.
Qed.

(** The same for [proxy_gemini]: the Gemini URL, 60 seconds, the envelope's
    [body], and the envelope's [apiKey] as [x-goog-api-key]. *)
Theorem gemini_call_is_the_envelope :
  forall (req : request) (c : wire_call),
    command req = "POST" ->
    path req = "/api/gemini" ->
    In c (out_calls (serve rt req)) ->
    exists n post_data text request_data api_key body key,
      py_int rt (header_get "Content-Length" (headers req)) = Val n /\
      rfile_read rt req n init = (Ok post_data, init) /\
      Utf8.decode post_data = Val text /\
      json_loads rt text = Val request_data /\
      Py.get request_data "apiKey" JNull = Val api_key /\
      Py.get request_data "body" JNull = Val body /\
      header_value api_key = Val key /\
      c = {| w_url := gemini_url;
             w_headers := [("Content-Type", "application/json");
                           ("x-goog-api-key", key)];
             w_data := dumps_utf8 rt body;
             w_timeout := Some 60%Z |}.
Proof.
  intros req c Hc Hp. enter Hc Hp Hrun. walk_in Hrun;
    cbn [out_calls calls app]; intros Hin; try contradiction;
    destruct Hin as [<-|[]]; headers_of_call;
    do 7 eexists; repeat split; eassumption.
Qed.

End Upstream.

(** ** The static side *)

Lemma header_lines_map (hs : list (string * string)) (rest : list hline) :
  header_lines (map (fun h => HeaderLine (fst h) (snd h)) hs ++ rest)
  = hs ++ header_lines rest.
Proof.
  induction hs as [|[k v] hs IH]; [reflexivity|].
  cbn [map app header_lines fst snd]. now rewrite IH.
Qed.

(** ** Which envelopes are forwarded *)

(** The request log of [proxy_claude] completes when the key is a string
    and the body an object. *)
Lemma log_claude_request_completes (k : str) (items : list (str * json)) :
  snd (log_claude_request (JStr k) (JDict items)) = Val tt.
Proof.
  unfold log_claude_request. cbn [Py.get pbind print say dbind snd].
  destruct (Py.truthy (JStr k)); reflexivity.
Qed.

Section Forwarding.

Variable rt : runtime.

(** An envelope whose [apiKey] is a string that can stand in a header and
    whose [body] is an object is forwarded by [proxy_claude]: exactly one
    call goes out, with that key and that body. An empty key qualifies. *)
Theorem claude_forwards_a_well_formed_envelope :
  forall (req : request) (n : Z) (post_data : bytes) (text : str)
         (request_data : json) (k : str) (key : string) (items : list (str * json)),
    command req = "POST" ->
    path req = "/api/claude" ->
    py_int rt (header_get "Content-Length" (headers req)) = Val n ->
    rfile_read rt req n init = (Ok post_data, init) ->
    Utf8.decode post_data = Val text ->
    json_loads rt text = Val request_data ->
    Py.get request_data "apiKey" JNull = Val (JStr k) ->
    Py.get request_data "body" JNull = Val (JDict items) ->
    header_value (JStr k) = Val key ->
    out_calls (serve rt req) =
    [{| w_url := claude_url;
        w_headers := [("Content-Type", "application/json");
                      ("x-api-key", key);
                      ("anthropic-version", "2023-06-01")];
        w_data := dumps_utf8 rt (JDict items);
        w_timeout := None |}].
Proof.
  intros req n post_data text request_data k key items
         Hc Hp Hlen Hread Hdec Hload Hkey Hbody Hval.
  enter Hc Hp Hrun. open_in Hrun.
  given_in Hrun Hlen. given_in Hrun Hread. given_in Hrun Hdec.
  given_in Hrun Hload. given_in Hrun Hkey. given_in Hrun Hbody.
  given_in Hrun (log_claude_request_completes k items).
  rewrite put_headers_claude, Hval in Hrun. cbn [pbind] in Hrun. reduce_in Hrun.
  repeat (step_in Hrun); injection Hrun as <- <-; reflexivity.
Qed.

(** An envelope whose [apiKey] can stand in a header and whose [body] lets
    the prompt preview complete is forwarded by [proxy_gemini]: exactly one
    call goes out, with that key and that body. *)
Theorem gemini_forwards_a_previewable_envelope :
  forall (req : request) (n : Z) (post_data : bytes) (text : str)
         (request_data api_key body : json) (key : string),
    command req = "POST" ->
    path req = "/api/gemini" ->
    py_int rt (header_get "Content-Length" (headers req)) = Val n ->
    rfile_read rt req n init = (Ok post_data, init) ->
    Utf8.decode post_data = Val text ->
    json_loads rt text = Val request_data ->
    Py.get request_data "apiKey" JNull = Val api_key ->
    Py.get request_data "body" JNull = Val body ->
    snd (log_gemini_request api_key body) = Val tt ->
    header_value api_key = Val key ->
    out_calls (serve rt req) =
    [{| w_url := gemini_url;
        w_headers := [("Content-Type", "application/json");
                      ("x-goog-api-key", key)];
        w_data := dumps_utf8 rt body;
        w_timeout := Some 60%Z |}].
Proof.
  intros req n post_data text request_data api_key body key
         Hc Hp Hlen Hread Hdec Hload Hkey Hbody Hlog Hval.
  enter Hc Hp Hrun. open_in Hrun.
  given_in Hrun Hlen. given_in Hrun Hread. given_in Hrun Hdec.
  given_in Hrun Hload. given_in Hrun Hkey. given_in Hrun Hbody.
  given_in Hrun Hlog.
  rewrite put_headers_gemini, Hval in Hrun. cbn [pbind] in Hrun. reduce_in Hrun.
  repeat (step_in Hrun); injection Hrun as <- <-; reflexivity.
Qed.


(** ** What the caller can receive *)


(** The only way a proxy method dies (writing to the caller and to
    [stderr] taken to succeed). If [do_POST] on a proxy path ends with an
    exception, then its call was made, the upstream answered outside 2xx,
    and the exception was raised inside the [except HTTPError] clause on the
    body of that answer: by [e.read()], because the body could not be read
    to its end, or by [error_body.decode('utf-8')], because it is not UTF-8.
    The caller was sent nothing. Every other failure is turned into a
    response. *)
Theorem proxy_dies_only_on_an_upstream_error_body :
  forall (req : request) (e : exn),
    command req = "POST" ->
    path req = "/api/claude" \/ path req = "/api/gemini" ->
    out_result (serve rt req) = Raise e ->
    out_response (serve rt req) = None /\
    exists c st reason hdrs p,
      out_calls (serve rt req) = [c] /\
      is_2xx st = false /\
      e = Exception p /\
      (network rt c = NetBodyError st reason hdrs p \/
       exists body, network rt c = NetResponse st reason hdrs body /\
                    Utf8.decode body = Exn p).
Proof.
  intros req e Hc Hp.
  destruct Hp as [Hp|Hp]; enter Hc Hp Hrun; walk_in Hrun;
    cbn [out_result out_response out_calls calls wfile app response_of];
    intros Hr; try discriminate Hr; injection Hr as <-;
    (split; [reflexivity|]);
    do 5 eexists; (split; [reflexivity|]); (split; [eassumption|]);
    (split; [reflexivity|]);
    first [ left; eassumption
          | right; eexists; split; eassumption ].
Qed.


(** A [Content-Length] that a proxy response declares is the length of the
    body it carries. ([proxy_claude] declares one when it relays an upstream
    answer; the synthesized 500s and [proxy_gemini] declare none.) *)
Theorem declared_length_is_the_body_length :
  forall (req : request) (r : response) (v : string),
    command req = "POST" ->
    path req = "/api/claude" \/ path req = "/api/gemini" ->
    out_response (serve rt req) = Some r ->
    header_get "Content-Length" (resp_headers r) = Some v ->
    v = str_of_nat (List.length (resp_body r)).
Proof.
  intros req r v Hc Hp.
  destruct Hp as [Hp|Hp]; enter Hc Hp Hrun; walk_in Hrun;
    cbn [out_response wfile app response_of header_lines body_bytes];
    intros Hr; try discriminate Hr; injection Hr as <-;
    cbn [resp_headers resp_body]; rewrite app_nil_r;
    intros Hv; vm_compute in Hv; try discriminate Hv.
  all: cbn -[str_of_nat] in Hv; injection Hv as <-; reflexivity.
Qed.

End Forwarding.

(** ** Reading the request body: the declared length is trusted *)

(** The length fits the index type. *)
Lemma fits_index (n : Z) :
  (- PY_SSIZE_T_MAX - 1 <= n <= PY_SSIZE_T_MAX)%Z ->
  (n <? - PY_SSIZE_T_MAX - 1)%Z || (PY_SSIZE_T_MAX <? n)%Z = false.
Proof.
  intros Hn. apply orb_false_iff. split; apply Z.ltb_ge; lia.
Qed.

Lemma rfile_read_short (rt : runtime) (req : request) (n : Z) (s : state) :
  rfile_eof req = false ->
  (n = -1 \/
   (Z.of_nat (List.length (rfile req)) < n <= PY_SSIZE_T_MAX /\
    bytes_refused rt n = None))%Z ->
  rfile_read rt req n s = (Block, s).
Proof.
  intros Heof Hn. unfold rfile_read. rewrite Heof.
  assert (Hmax : (0 < PY_SSIZE_T_MAX)%Z) by reflexivity.
  rewrite fits_index by lia.
  destruct (Z.ltb_spec n (-1)); [lia|].
  destruct (Z.eqb_spec n (-1)); [reflexivity|].
  destruct Hn as [Hn|[Hn Hmem]]; [contradiction|]. rewrite Hmem.
  destruct (Z.ltb_spec (Z.of_nat (List.length (rfile req))) n); [reflexivity|lia].
Qed.


(** What is read depends on the first [n] bytes alone. *)
Lemma rfile_read_prefix (rt : runtime) (req req' : request) (n : Z) (s : state) :
  (0 <= n <= Z.of_nat (List.length (rfile req)))%Z ->
  (n <= Z.of_nat (List.length (rfile req')))%Z ->
  firstn (Z.to_nat n) (rfile req') = firstn (Z.to_nat n) (rfile req) ->
  rfile_read rt req' n s = rfile_read rt req n s.
Proof.
  intros Hn Hn' Hfirst. unfold rfile_read.
  destruct (_ || _); [reflexivity|].
  destruct (Z.ltb_spec n (-1)); [lia|].
  destruct (Z.eqb_spec n (-1)); [lia|].
  destruct (bytes_refused rt n); [reflexivity|].
  destruct (Z.ltb_spec (Z.of_nat (List.length (rfile req))) n); [lia|].
  destruct (Z.ltb_spec (Z.of_nat (List.length (rfile req'))) n); [lia|].
  now rewrite Hfirst.
Qed.

Section Reading.

Variable rt : runtime.

(** A [Content-Length] larger than what the client sends, or [-1], on a
    connection that the client keeps open: when the length fits the index
    type and a result of that length can be allocated, the handler waits in
    [rfile.read] for ever. No response, no upstream call, not a line of
    log. (A length that does not fit, or that cannot be allocated, makes
    [rfile.read] raise, and the caller is answered [500].) *)
Theorem overstated_length_blocks_the_handler :
  forall (req : request) (n : Z),
    command req = "POST" ->
    path req = "/api/claude" \/ path req = "/api/gemini" ->
    py_int rt (header_get "Content-Length" (headers req)) = Val n ->
    rfile_eof req = false ->
    (n = -1 \/
     (Z.of_nat (List.length (rfile req)) < n <= PY_SSIZE_T_MAX /\
      bytes_refused rt n = None))%Z ->
    serve rt req =
    {| out_result := Block; out_response := None;
       out_calls := []; out_stderr := [] |}.
Proof.
  intros req n Hc Hp Hlen Heof Hn.
  destruct Hp as [Hp|Hp]; enter Hc Hp Hrun; open_in Hrun;
    given_in Hrun Hlen; given_in Hrun (rfile_read_short rt req n init Heof Hn);
    injection Hrun as <- <-; reflexivity.
Qed.

(** Bytes beyond the declared length are never looked at: two POSTs with
    the same request line and headers, whose bodies agree on the first
    [Content-Length] bytes, are served alike, whatever follows in either. *)
Theorem bytes_beyond_the_declared_length_are_ignored :
  forall (req req' : request) (n : Z),
    command req = "POST" ->
    command req' = command req ->
    path req' = path req ->
    headers req' = headers req ->
    py_int rt (header_get "Content-Length" (headers req)) = Val n ->
    (0 <= n <= Z.of_nat (List.length (rfile req)))%Z ->
    (n <= Z.of_nat (List.length (rfile req')))%Z ->
    firstn (Z.to_nat n) (rfile req') = firstn (Z.to_nat n) (rfile req) ->
    serve rt req' = serve rt req.
Proof.
  intros req req' n Hc Hc' Hp' Hh' Hlen Hn Hn' Hfirst.
  unfold serve, handle_one_request, do_POST. rewrite Hc', Hp', Hc.
  cbn [String.eqb Ascii.eqb Bool.eqb].
  assert (Hsame : forall s, rfile_read rt req' n s = rfile_read rt req n s).
  { intros s. apply rfile_read_prefix; assumption. }
  destruct (String.eqb (path req) "/api/claude");
    [|destruct (String.eqb (path req) "/api/gemini"); [|reflexivity]];
    unfold run, proxy_claude, proxy_gemini, try_except, bind;
    rewrite Hh', Hlen; cbn [lift ret]; rewrite Hsame; reflexivity.
Qed.


(** ** What the log shows *)

(** The request log of [proxy_claude] depends on the key only through its
    first 15 characters: two keys with the same first 15 characters leave
    the same lines, whatever the body. *)
Theorem claude_request_log_shows_15_characters_of_the_key :
  forall (k k' : str) (body : json),
    firstn 15 k = firstn 15 k' ->
    log_claude_request (JStr k) body = log_claude_request (JStr k') body.
Proof.
  intros k k' body Hfirst.
  assert (Htruthy : Py.truthy (JStr k) = Py.truthy (JStr k')).
  { destruct k, k'; cbn in Hfirst |- *; try discriminate Hfirst; reflexivity. }
  unfold log_claude_request. cbn [Py.slice_to]. rewrite Hfirst, Htruthy.
  reflexivity.
Qed.

(** The request log of [proxy_gemini] depends on the key only through its
    truth value: it says whether a key is present, and shows none of it. *)
Theorem gemini_request_log_shows_nothing_of_the_key :
  forall (api_key api_key' body : json),
    Py.truthy api_key = Py.truthy api_key' ->
    log_gemini_request api_key body = log_gemini_request api_key' body.
Proof.
  intros api_key api_key' body Htruthy.
  unfold log_gemini_request. rewrite Htruthy. reflexivity.
Qed.

(** A 2xx payload of [/api/claude] that is not JSON does not disturb the
    response log: the inner [except] takes the error of [json.loads], the
    log notes it and completes. *)
Theorem claude_response_log_survives_a_payload_that_is_not_json :
  forall (response : http_response) (response_data : bytes)
         (response_text : str) (e : pyexc),
    json_loads rt response_text = Exn e ->
    snd (log_claude_response rt response response_data response_text) = Val tt /\
    In [Text (nl ++ "Response is not valid JSON: "); Decoded (exc_msg e)]
       (fst (log_claude_response rt response response_data response_text)).
Proof.
  intros response response_data response_text e Hload.
  split; [apply log_claude_response_completes|].
  unfold log_claude_response, inspect_content. rewrite Hload.
  cbn [eval dbind dtry say print fst snd app].
  destruct (_ || _); cbn [say print dret dbind fst snd app];
    repeat first [left; reflexivity | right].
Qed.

(** ** Encoding *)

Lemma decode_encode_char (a : ascii) (rest : list N) :
  Utf8.decode_N (map Byte.to_N (map byte_of_N (Utf8.encode_char (N_of_ascii a))) ++ rest)
  = option_map (cons (N_of_ascii a)) (Utf8.decode_N rest).
Proof. destruct a as [[] [] [] [] [] [] [] []]; reflexivity. Qed.

Lemma decode_encode_text (s : string) :
  Utf8.decode (Utf8.encode_text s) = Val (lit s).
Proof.
  unfold Utf8.decode, Utf8.encode_text, lit.
  assert (H : Utf8.decode_N
                (map Byte.to_N
                   (flat_map (fun a => map byte_of_N (Utf8.encode_char (N_of_ascii a)))
                             (list_ascii_of_string s)))
              = Some (map N_of_ascii (list_ascii_of_string s))).
  { induction s as [|a r IH]; [reflexivity|].
    cbn [list_ascii_of_string flat_map map]. rewrite map_app, decode_encode_char, IH.
    reflexivity. }
  now rewrite H.
Qed.

(** What the proxy encodes, a forwarded body or the object of a
    synthesized 500, decodes back to the text that [json.dumps] gave: the
    bytes it sends of its own are always UTF-8. *)
Theorem what_the_proxy_encodes_decodes_back :
  forall (v : json),
    Utf8.decode (dumps_utf8 rt v) = Val (lit (json_dumps rt v)).
Proof. intros v. apply decode_encode_text. Qed.

End Reading.

(** ** These properties on concrete requests *)

Module Checks.

Import Examples.
Import Upstreams.

Lemma only_proxy_posts_reach_the_upstream_witness :
  let req := post "/api/gemini" gemini_envelope in
  command req = "POST" /\ (path req = "/api/claude" \/ path req = "/api/gemini").
Proof.
  cbv zeta.
  eapply (only_proxy_posts_reach_the_upstream
            (python unreachable) (post "/api/gemini" gemini_envelope)).
  vm_compute. left. reflexivity.
Defined.

Lemma post_elsewhere_dies_unanswered_witness :
  let o := serve ok_claude (post "/api/claude?debug=1" claude_envelope) in
  out_response o = None /\
  out_calls o = [] /\
  exists msg, out_result o = Raise (Exception (PyExc "AttributeError" msg)).
Proof.
  cbv zeta.
  apply (post_elsewhere_dies_unanswered
           ok_claude (post "/api/claude?debug=1" claude_envelope)).
  - reflexivity.
  - discriminate.
  - discriminate.
Defined.

Lemma claude_call_is_the_envelope_witness :
  let req := post "/api/claude" claude_envelope in
  exists c n post_data text request_data api_key body key,
    In c (out_calls (serve ok_claude req)) /\
    py_int ok_claude (header_get "Content-Length" (headers req)) = Val n /\
    rfile_read ok_claude req n init = (Ok post_data, init) /\
    Utf8.decode post_data = Val text /\
    json_loads ok_claude text = Val request_data /\
    Py.get request_data "apiKey" JNull = Val api_key /\
    Py.get request_data "body" JNull = Val body /\
    header_value api_key = Val key /\
    c = {| w_url := claude_url;
           w_headers := [("Content-Type", "application/json");
                         ("x-api-key", key);
                         ("anthropic-version", "2023-06-01")];
           w_data := dumps_utf8 ok_claude body;
           w_timeout := None |}.
Proof.
  cbv zeta. eexists.
  assert (Hin : In _ (out_calls (serve ok_claude (post "/api/claude" claude_envelope))))
    by (vm_compute; left; reflexivity).
  destruct (claude_call_is_the_envelope
              ok_claude (post "/api/claude" claude_envelope) _
              eq_refl eq_refl Hin)
    as (n & post_data & text & request_data & api_key & body & key & H).
  exists n, post_data, text, request_data, api_key, body, key.
  split; [exact Hin|exact H].
Defined.

Lemma gemini_call_is_the_envelope_witness :
  let rt := python unreachable in
  let req := post "/api/gemini" gemini_envelope in
  exists c n post_data text request_data api_key body key,
    In c (out_calls (serve rt req)) /\
    py_int rt (header_get "Content-Length" (headers req)) = Val n /\
    rfile_read rt req n init = (Ok post_data, init) /\
    Utf8.decode post_data = Val text /\
    json_loads rt text = Val request_data /\
    Py.get request_data "apiKey" JNull = Val api_key /\
    Py.get request_data "body" JNull = Val body /\
    header_value api_key = Val key /\
    c = {| w_url := gemini_url;
           w_headers := [("Content-Type", "application/json");
                         ("x-goog-api-key", key)];
           w_data := dumps_utf8 rt body;
           w_timeout := Some 60%Z |}.
Proof.
  cbv zeta. eexists.
  assert (Hin : In _ (out_calls (serve (python unreachable)
                                       (post "/api/gemini" gemini_envelope))))
    by (vm_compute; left; reflexivity).
  destruct (gemini_call_is_the_envelope
              (python unreachable) (post "/api/gemini" gemini_envelope) _
              eq_refl eq_refl Hin)
    as (n & post_data & text & request_data & api_key & body & key & H).
  exists n, post_data, text, request_data, api_key, body, key.
  split; [exact Hin|exact H].
Defined.

Lemma claude_forwards_a_well_formed_envelope_witness :
  exists key items,
    out_calls (serve ok_claude (post "/api/claude" claude_envelope)) =
    [{| w_url := claude_url;
        w_headers := [("Content-Type", "application/json");
                      ("x-api-key", key);
                      ("anthropic-version", "2023-06-01")];
        w_data := dumps_utf8 ok_claude (JDict items);
        w_timeout := None |}].
Proof.
  do 2 eexists.
  eapply (claude_forwards_a_well_formed_envelope
            ok_claude (post "/api/claude" claude_envelope)).
  - reflexivity.
  - reflexivity.
  - vm_compute. reflexivity.
  - vm_compute. reflexivity.
  - vm_compute. reflexivity.
  - vm_compute. reflexivity.
  - vm_compute. reflexivity.
  - vm_compute. reflexivity.
  - vm_compute. reflexivity.
Defined.

Lemma gemini_forwards_a_previewable_envelope_witness :
  exists key body,
    out_calls (serve (python unreachable) (post "/api/gemini" gemini_envelope)) =
    [{| w_url := gemini_url;
        w_headers := [("Content-Type", "application/json");
                      ("x-goog-api-key", key)];
        w_data := dumps_utf8 (python unreachable) body;
        w_timeout := Some 60%Z |}].
Proof.
  do 2 eexists.
  eapply (gemini_forwards_a_previewable_envelope
            (python unreachable) (post "/api/gemini" gemini_envelope)).
  - reflexivity.
  - reflexivity.
  - vm_compute. reflexivity.
  - vm_compute. reflexivity.
  - vm_compute. reflexivity.
  - vm_compute. reflexivity.
  - vm_compute. reflexivity.
  - vm_compute. reflexivity.
  - vm_compute. reflexivity.
  - vm_compute. reflexivity.
Defined.



Lemma proxy_dies_only_on_an_upstream_error_body_witness :
  let rt := cut_short 502 "Bad Gateway" in
  let req := post "/api/gemini" gemini_envelope in
  out_response (serve rt req) = None /\
  exists c st reason hdrs p,
    out_calls (serve rt req) = [c] /\
    is_2xx st = false /\
    Exception (PyExc "IncompleteRead"
                     (lit "IncompleteRead(10 bytes read, 90 more expected)"))
    = Exception p /\
    (network rt c = NetBodyError st reason hdrs p \/
     exists body, network rt c = NetResponse st reason hdrs body /\
                  Utf8.decode body = Exn p).
Proof.
  cbv zeta.
  apply (proxy_dies_only_on_an_upstream_error_body
           (cut_short 502 "Bad Gateway") (post "/api/gemini" gemini_envelope)).
  - reflexivity.
  - right. reflexivity.
  - vm_compute. reflexivity.
Defined.


Lemma declared_length_is_the_body_length_witness :
  exists r, out_response (serve ok_claude (post "/api/claude" claude_envelope)) = Some r /\
            header_get "Content-Length" (resp_headers r) = Some "27" /\
            "27" = str_of_nat (List.length (resp_body r)).
Proof.
  eexists. split; [vm_compute; reflexivity|]. split; [reflexivity|].
  eapply (declared_length_is_the_body_length
            ok_claude (post "/api/claude" claude_envelope)).
  - reflexivity.
  - left. reflexivity.
  - vm_compute. reflexivity.
  - reflexivity.
Defined.

Lemma overstated_length_blocks_the_handler_witness :
  serve ok_claude (post_declaring "/api/claude" "4096" claude_envelope) =
  {| out_result := Block; out_response := None; out_calls := []; out_stderr := [] |}.
Proof.
  apply (overstated_length_blocks_the_handler
           ok_claude (post_declaring "/api/claude" "4096" claude_envelope) 4096).
  - reflexivity.
  - left. reflexivity.
  - vm_compute. reflexivity.
  - reflexivity.
  - right. split; [split|].
    + apply Z.ltb_lt. vm_compute. reflexivity.
    + apply Z.leb_le. vm_compute. reflexivity.
    + vm_compute. reflexivity.
Defined.

Lemma bytes_beyond_the_declared_length_are_ignored_witness :
  serve ok_claude
        (post_declaring "/api/claude" "62" (claude_envelope ++ ascii_bytes "GET / HTTP/1.1"))
  = serve ok_claude (post_declaring "/api/claude" "62" claude_envelope).
Proof.
  apply (bytes_beyond_the_declared_length_are_ignored
           ok_claude (post_declaring "/api/claude" "62" claude_envelope)
           (post_declaring "/api/claude" "62"
                           (claude_envelope ++ ascii_bytes "GET / HTTP/1.1")) 62).
  - reflexivity.
  - reflexivity.
  - reflexivity.
  - reflexivity.
  - vm_compute. reflexivity.
  - split; apply Z.leb_le; vm_compute; reflexivity.
  - apply Z.leb_le. vm_compute. reflexivity.
  - vm_compute. reflexivity.
Defined.


Lemma claude_request_log_shows_15_characters_of_the_key_witness :
  log_claude_request (JStr (lit "sk-ant-REDACTED")) (JDict [])
  = log_claude_request (JStr (lit "sk-ant-REDACTED")) (JDict []).
Proof.
  apply (claude_request_log_shows_15_characters_of_the_key
           (lit "sk-ant-REDACTED")
           (lit "sk-ant-REDACTED")).
  vm_compute. reflexivity.
Defined.

Lemma gemini_request_log_shows_nothing_of_the_key_witness :
  log_gemini_request (JStr (lit "AIza-one")) (JDict [])
  = log_gemini_request (JStr (lit "another key")) (JDict []).
Proof.
  apply (gemini_request_log_shows_nothing_of_the_key
           (JStr (lit "AIza-one")) (JStr (lit "another key"))).
  reflexivity.
Defined.

Lemma claude_response_log_survives_a_payload_that_is_not_json_witness :
  let response := {| status := 200; resp_hdrs := []; payload := ascii_bytes "<html>" |} in
  exists e,
    snd (log_claude_response ok_claude response (ascii_bytes "<html>") (lit "<html>"))
    = Val tt /\
    In [Text (nl ++ "Response is not valid JSON: "); Decoded (exc_msg e)]
       (fst (log_claude_response ok_claude response (ascii_bytes "<html>") (lit "<html>"))).
Proof.
  cbv zeta. eexists.
  apply (claude_response_log_survives_a_payload_that_is_not_json ok_claude).
  vm_compute. reflexivity.
Defined.


Lemma undecodable_error_body_is_fatal_witness :
  let req := post "/api/claude" claude_envelope in
  exists e, out_result (serve bad_gateway req) = Raise (Exception e) /\
            out_response (serve bad_gateway req) = None.
Proof.
  cbv zeta. eexists.
  eapply (undecodable_error_body_is_fatal bad_gateway (post "/api/claude" claude_envelope)).
  - reflexivity.
  - left. reflexivity.
  - vm_compute. left. reflexivity.
  - vm_compute. reflexivity.
  - reflexivity.
  - vm_compute. reflexivity.
Defined.

Lemma silent_agrees_from_the_call_on_witness :
  let req := post "/api/gemini" gemini_envelope in
  out_calls (run (proxy_gemini_silent too_many req))
  = out_calls (run (proxy_gemini too_many req)) /\
  (out_response (run (proxy_gemini_silent too_many req))
   = out_response (run (proxy_gemini too_many req)) \/
   exists st reason hdrs body e,
     network too_many
       {| w_url := gemini_url;
          w_headers := [("Content-Type", "application/json"); ("x-goog-api-key", "k")];
          w_data := dumps_utf8 too_many
                      (JDict [(lit "contents",
                         JList [JDict [(lit "parts",
                           JList [JDict [(lit "text", JStr (lit "a cat"))]])]])]);
          w_timeout := Some 60%Z |}
     = NetResponse st reason hdrs body /\
     is_2xx st = false /\ Utf8.decode body = Exn e).
Proof.
  cbv zeta.
  apply (silent_agrees_from_the_call_on too_many (post "/api/gemini" gemini_envelope)).
  vm_compute. left. reflexivity.
Defined.

End Checks.
